(** * Impression-share bid suggestions

    A shallow embedding of [asa_api_cli/impression_share.py] and the proofs of
    the properties its specification states.

    Python values are embedded as follows.
    - [float] is IEEE binary64: Rocq's primitive [float], whose operations the
      kernel evaluates and whose specification is [SpecFloat].
    - [int] is [Z]; [str] is [string]; [X | None] is [option X].
    - [Decimal] is the record [decimal.Decimal] (sign, coefficient, exponent)
      with the arithmetic of the default context (28 digits, ROUND_HALF_EVEN).
    - [dict[int, ...]] is a [gmap Z ...]; lists are lists.
    - a raised exception is the [Raise] case of [result]. *)

From Stdlib Require Import ZArith NArith List Bool Floats Lia Sorted Permutation.
From stdpp Require Import gmap strings pretty.
Import ListNotations.

#[local] Set Warnings "-inexact-float".
#[local] Open Scope Z_scope.

(* ===================================================================== *)
(** * Part I: the embedding                                               *)
(* ===================================================================== *)

(** ** Exceptions *)

Inductive exn : Type :=
| OverflowError
| ValueError.

Inductive result (A : Type) : Type :=
| Ok (a : A)
| Raise (e : exn).

Arguments Ok {A} a.
Arguments Raise {A} e.

(** Sequencing: the first exception raised ends the computation. *)
#[global] Instance result_bind : MBind result := fun A B k r =>
  match r with
  | Ok a => k a
  | Raise e => Raise e
  end.

(** ** Python's [float] *)

Module Float64.

(** [bool(x)] for a float: false exactly for [0.0] and [-0.0]. *)
Definition truthy (x : float) : bool := negb (PrimFloat.eqb x 0%float).

(** [int(x)]: truncation towards zero; [OverflowError] on an infinity and
    [ValueError] on a NaN. *)
Definition to_int (x : float) : result Z :=
  match Prim2SF x with
  | S754_zero _ => Ok 0
  | S754_finite s m e =>
      let v := Z.shiftl (Zpos m) e in
      Ok (if s then - v else v)
  | S754_infinity _ => Raise OverflowError
  | S754_nan => Raise ValueError
  end.

(** [x >= y] *)
Definition geb (x y : float) : bool := PrimFloat.leb y x.

End Float64.

(** ** Python's [Decimal] *)

Module decimal.

(** A finite decimal number [(-1)^sign * int * 10^exp]. Bid amounts are
    finite; the special values of the type (NaN, infinities) are no amounts
    and have no constructor here. *)
Record Decimal : Type := mkDecimal {
  dec_sign : bool;
  dec_int : N;
  dec_exp : Z
}.

(** The precision of the default context. *)
Definition prec : N := 28.

(** [len(str(c))] *)
Fixpoint ndigits_fuel (fuel : nat) (c : N) : N :=
  match fuel with
  | O => 1
  | S fuel' => if (c <? 10)%N then 1%N else (1 + ndigits_fuel fuel' (c / 10))%N
  end.

Definition ndigits (c : N) : N := ndigits_fuel (N.to_nat (N.size c)) c.

(** [c / 10^k] rounded half-even (ROUND_HALF_EVEN). *)
Definition round_half_even (c k : N) : N :=
  let q := (c / 10 ^ k)%N in
  let r := (c mod 10 ^ k)%N in
  if ((10 ^ k <? 2 * r) || ((2 * r =? 10 ^ k) && N.odd q))%N
  then (q + 1)%N else q.

(** [Decimal._fix]: round to the context's precision. The exponent limits
    of the context (Emax = 999999) are far from any amount of money and are
    left out. *)
Definition fix_prec (a : Decimal) : Decimal :=
  let d := ndigits (dec_int a) in
  if (d <=? prec)%N then a
  else
    let k := (d - prec)%N in
    let q := round_half_even (dec_int a) k in
    if (q =? 10 ^ prec)%N
    then mkDecimal (dec_sign a) (q / 10)%N (dec_exp a + Z.of_N k + 1)
    else mkDecimal (dec_sign a) q (dec_exp a + Z.of_N k).

(** [a * b] *)
Definition mul (a b : Decimal) : Decimal :=
  fix_prec (mkDecimal (xorb (dec_sign a) (dec_sign b))
                      (dec_int a * dec_int b)%N
                      (dec_exp a + dec_exp b)).

(** The signed coefficient of [a] at the exponent [e <= dec_exp a]. *)
Definition scaled (a : Decimal) (e : Z) : Z :=
  let c := Z.of_N (dec_int a) * 10 ^ (dec_exp a - e) in
  if dec_sign a then - c else c.

(** [Decimal._cmp]: the numerical comparison. *)
Definition compare (a b : Decimal) : comparison :=
  let e := Z.min (dec_exp a) (dec_exp b) in
  Z.compare (scaled a e) (scaled b e).

(** [a == b] *)
Definition eqb (a b : Decimal) : bool :=
  match compare a b with Eq => true | _ => false end.

(** [a > b] *)
Definition gtb (a b : Decimal) : bool :=
  match compare a b with Gt => true | _ => false end.

(** [a >= b] *)
Definition geb (a b : Decimal) : bool :=
  match compare a b with Lt => false | _ => true end.

Definition pad2 (n : N) : string :=
  if (n <? 10)%N then String.append "0" (pretty n) else pretty n.

(** [f"{a:.2f}"]: rescale to two places (half-even) and print. *)
Definition format_2f (a : Decimal) : string :=
  let c :=
    if (-2 <=? dec_exp a)
    then (dec_int a * 10 ^ Z.to_N (dec_exp a + 2))%N
    else round_half_even (dec_int a) (Z.to_N (- 2 - dec_exp a)) in
  String.append (if dec_sign a then "-" else "")
    (String.append (pretty (c / 100)%N)
       (String.append "." (pad2 (c mod 100)%N))).

End decimal.

Abbreviation Decimal := decimal.Decimal.
Abbreviation mkDecimal := decimal.mkDecimal.

(** The literals of the source. *)
Definition Decimal_0 : Decimal := mkDecimal false 0 0.          (* Decimal("0") *)
Definition Decimal_1_50 : Decimal := mkDecimal false 150 (-2).  (* Decimal("1.50") *)
Definition Decimal_1_25 : Decimal := mkDecimal false 125 (-2).  (* Decimal("1.25") *)
Definition Decimal_1_10 : Decimal := mkDecimal false 110 (-2).  (* Decimal("1.10") *)

(** ** [KeywordShareData] (lines 30-46) *)

Record KeywordShareData : Type := mkKeywordShareData {
  campaign_id : Z;
  campaign_name : string;
  ad_group_id : Z;
  ad_group_name : string;
  keyword_id : Z;
  keyword : string;
  country : string;
  current_bid : Decimal;
  currency : string;
  low_share : option float;
  high_share : option float;
  rank : option Z;
  search_popularity : option Z
}.

(** [f"{int(x * 100)}"] *)
Definition percent_str (x : float) : result string :=
  n ← Float64.to_int (x * 100)%float; Ok (pretty n).

(** [f"{int(x * 100)}" if x else default], for [x : float | None] *)
Definition percent_or (x : option float) (default : string) : result string :=
  match x with
  | Some f => if Float64.truthy f then percent_str f else Ok default
  | None => Ok default
  end.

(** [KeywordShareData.share_range] (lines 48-55) *)
Definition share_range (self : KeywordShareData) : result string :=
  match low_share self, high_share self with
  | None, None => Ok "N/A"%string
  | _, _ =>
      low ← percent_or (low_share self) "0";
      high ← percent_or (high_share self) "?";
      Ok (String.append low (String.append "-" (String.append high "%")))
  end.

(** [KeywordShareData.rank_str] (lines 57-60) *)
Definition rank_str (self : KeywordShareData) : string :=
  match rank self with
  | Some r => if r =? 0 then "N/A"%string else pretty r
  | None => "N/A"%string
  end.

(** [KeywordShareData.bid_str] (lines 62-65) *)
Definition bid_str (self : KeywordShareData) : string :=
  String.append (decimal.format_2f (current_bid self)) (String.append " " (currency self)).

(** [KeywordShareData.suggested_bid] (lines 67-87) *)
Definition suggested_bid (self : KeywordShareData) : Decimal :=
  match high_share self with
  | None => current_bid self
  | Some h =>
      if Float64.geb h 0.5%float then current_bid self
      else
        let high_pct := (h * 100)%float in
        if (high_pct <=? 10)%float then decimal.mul (current_bid self) Decimal_1_50
        else if (high_pct <=? 30)%float then decimal.mul (current_bid self) Decimal_1_25
        else if (high_pct <=? 50)%float then decimal.mul (current_bid self) Decimal_1_10
        else current_bid self
  end.

(** [KeywordShareData.suggested_bid_str] (lines 89-95) *)
Definition suggested_bid_str (self : KeywordShareData) : string :=
  let suggested := suggested_bid self in
  if decimal.eqb suggested (current_bid self) then "-"%string
  else String.append (decimal.format_2f suggested) (String.append " " (currency self)).

(** ** The report of the API client

    The types of [asa_api_client.models.reports], a package that is not part
    of the sources. *)

Module Report.

(** Modelled from the spec: the metadata of a row of the report, whose
    declaration is missing. The fields are those the code reads; each is
    optional, as the code's [or] defaults and its test of [keyword_id] and
    [keyword] say. *)
Record Metadata : Type := mkMetadata {
  campaign_id : option Z;
  campaign_name : option string;
  ad_group_id : option Z;
  ad_group_name : option string;
  keyword_id : option Z;
  keyword : option string;
  country_or_region : option string
}.

(** Modelled from the spec: a row of the report, whose declaration is
    missing: the metadata, the impression-share pair (a bucketed range,
    "each optional"), an optional rank and an optional search popularity. *)
Record Row : Type := mkRow {
  metadata : Metadata;
  low_impression_share : option float;
  high_impression_share : option float;
  rank : option Z;
  search_popularity : option Z
}.

(** Modelled from the spec: the report, whose declaration is missing; the
    code reads its list of rows [report.row]. *)
Record ImpressionShareReport : Type := mkReport {
  row : list Row
}.

End Report.

(** [bool(x)] for [x : int | None] and [x : str | None]. *)
Definition int_truthy (x : option Z) : bool :=
  match x with
  | Some n => negb (n =? 0)
  | None => false
  end.

Definition str_truthy (x : option string) : bool :=
  match x with
  | Some s => negb (String.eqb s "")
  | None => false
  end.

(** [x or 0] and [x or ""] *)
Definition int_or (x : option Z) (default : Z) : Z :=
  match x with
  | Some n => if n =? 0 then default else n
  | None => default
  end.

Definition str_or (x : option string) (default : string) : string :=
  match x with
  | Some s => if String.eqb s "" then default else s
  | None => default
  end.

(** The values of [keywords_by_id]: a dict with the keys ["bid"] and
    ["currency"], each present or not ([{}] has neither). *)
Record KeywordInfo : Type := mkKeywordInfo {
  bid : option Decimal;
  kw_currency : option string
}.

Definition empty_info : KeywordInfo := mkKeywordInfo None None.

(** The body of the loop of [_parse_report_data] (lines 105-131):
    [results] after [row]. *)
Definition parse_row (keywords_by_id : gmap Z KeywordInfo)
    (results : list KeywordShareData) (row : Report.Row) : list KeywordShareData :=
  let meta := Report.metadata row in
  if negb (int_truthy (Report.keyword_id meta)) || negb (str_truthy (Report.keyword meta))
  then results
  else
    match Report.keyword_id meta, Report.keyword meta with
    | Some kid, Some kw =>
        let kw_info := default empty_info (keywords_by_id !! kid) in
        let bid_amount := default Decimal_0 (bid kw_info) in
        let currency := default "USD"%string (kw_currency kw_info) in
        results ++ [ mkKeywordShareData
                       (int_or (Report.campaign_id meta) 0)
                       (str_or (Report.campaign_name meta) "")
                       (int_or (Report.ad_group_id meta) 0)
                       (str_or (Report.ad_group_name meta) "")
                       kid
                       kw
                       (str_or (Report.country_or_region meta) "")
                       bid_amount
                       currency
                       (Report.low_impression_share row)
                       (Report.high_impression_share row)
                       (Report.rank row)
                       (Report.search_popularity row) ]
    | _, _ => results (* not reached: a truthy value is not [None] *)
    end.

(** [_parse_report_data] (lines 98-133) *)
Definition _parse_report_data (report : Report.ImpressionShareReport)
    (keywords_by_id : gmap Z KeywordInfo) : list KeywordShareData :=
  fold_left (parse_row keywords_by_id) (Report.row report) [].

(** ** Dates

    A [date] is its proleptic Gregorian ordinal ([date.toordinal()]); a
    [timedelta] is its number of days. Both constructors raise
    [OverflowError] outside the ranges of the [datetime] module. *)

Module datetime.

Definition MAXORDINAL : Z := 3652059.

(** [timedelta(days=n)] *)
Definition timedelta (n : Z) : result Z :=
  if (-999999999 <=? n) && (n <=? 999999999) then Ok n else Raise OverflowError.

(** [d - delta] for a date [d] *)
Definition date_sub (d delta : Z) : result Z :=
  let o := d - delta in
  if (0 <? o) && (o <=? MAXORDINAL) then Ok o else Raise OverflowError.

End datetime.

(** ** The commands *)

Definition lookback_warning : string := "Maximum lookback is 30 days, using 30".

Record Lookback : Type := mkLookback {
  lb_days : Z;
  start_date : Z;
  end_date : Z
}.

(** The first statements of each command (lines 201-207, 324-330, 491-497):
    the warnings printed and the period of the report, from [date.today()]
    and the option [--days]. *)
Definition lookback_window (today days : Z) : list string * result Lookback :=
  let '(printed, days) :=
    if 30 <? days then ([lookback_warning], 30) else ([], days) in
  (printed,
   one ← datetime.timedelta 1;
   end_date ← datetime.date_sub today one;
   span ← datetime.timedelta (days - 1);
   start_date ← datetime.date_sub end_date span;
   Ok (mkLookback days start_date end_date)).

(** The commands of the CLI: [analyze_impression_share],
    [interactive_bid_optimizer] and [generate_share_report]. *)
Inductive command : Type :=
| cmd_analyze
| cmd_optimize
| cmd_report.

(** The three commands start with the same statements. *)
Definition command_window (c : command) (today days : Z) : list string * result Lookback :=
  match c with
  | cmd_analyze => lookback_window today days
  | cmd_optimize => lookback_window today days
  | cmd_report => lookback_window today days
  end.

(** [[d for d in data if d.high_share is not None and d.high_share < threshold]] *)
Definition below_threshold (threshold : float) (d : KeywordShareData) : bool :=
  match high_share d with
  | Some h => (h <? threshold)%float
  | None => false
  end.

(** The min-share filter of [analyze] (lines 268-271). *)
Definition min_share_filter (min_share : option float)
    (data : list KeywordShareData) : list KeywordShareData :=
  match min_share with
  | Some ms =>
      let threshold := (ms / 100)%float in
      List.filter (below_threshold threshold) data
  | None => data
  end.

(** The filters of [optimize] (lines 379-381). *)
Definition max_share_filter (max_share : float)
    (data : list KeywordShareData) : list KeywordShareData :=
  let threshold := (max_share / 100)%float in
  let data := List.filter (below_threshold threshold) data in
  List.filter (fun d => decimal.gtb (suggested_bid d) (current_bid d)) data.

(** The sort key [lambda x: x.high_share or 0]. *)
Definition share_key (x : KeywordShareData) : float :=
  match high_share x with
  | Some h => if Float64.truthy h then h else 0%float
  | None => 0%float
  end.

(** [list.sort(key=...)] is a stable sort that compares keys with [<] only.
    On keys that [<] orders totally (no NaN) the result of a stable sort is
    unique; it is computed here by insertion from the left, each element
    going behind the elements that are not greater. *)
Fixpoint insert_by_share (x : KeywordShareData) (sorted : list KeywordShareData)
  : list KeywordShareData :=
  match sorted with
  | [] => [x]
  | y :: rest =>
      if (share_key x <? share_key y)%float then x :: y :: rest
      else y :: insert_by_share x rest
  end.

(** [data.sort(key=lambda x: x.high_share or 0)] *)
Definition sort_by_share (data : list KeywordShareData) : list KeywordShareData :=
  fold_left (fun sorted x => insert_by_share x sorted) data [].

(** The rows [analyze] displays, from the parsed rows that passed the
    campaign filter; [None] when it returns with "No keywords match". *)
Definition analyze_rows (min_share : option float)
    (data : list KeywordShareData) : option (list KeywordShareData) :=
  match min_share_filter min_share data with
  | [] => None
  | data => Some (sort_by_share data)
  end.

(** The keywords [optimize] walks through, from the parsed rows; [None]
    when it returns with "no optimization needed". *)
Definition optimize_rows (max_share : float)
    (data : list KeywordShareData) : option (list KeywordShareData) :=
  match max_share_filter max_share data with
  | [] => None
  | data => Some (sort_by_share data)
  end.

(** ** CSV export *)










(** ** Strings

    A character of a [str] is a code point up to U+00FF. *)

(** The character U+002A *)
Definition star : Ascii.ascii := Ascii.ascii_of_N 42.

(** [s.replace("*", "")] *)
Fixpoint replace_stars (s : string) : string :=
  match s with
  | EmptyString => EmptyString
  | String c s' =>
      if Ascii.eqb c star then replace_stars s' else String c (replace_stars s')
  end.

(** [c.lower()]: the capital letters up to U+00FF are A-Z and U+00C0-U+00DE
    without the multiplication sign U+00D7; the small letter of each is 32
    code points on. *)
Definition lower_char (c : Ascii.ascii) : Ascii.ascii :=
  let n := Ascii.N_of_ascii c in
  if ((65 <=? n) && (n <=? 90) || (192 <=? n) && (n <=? 222) && negb (n =? 215))%N
  then Ascii.ascii_of_N (n + 32) else c.

(** [s.lower()] *)
Fixpoint lower (s : string) : string :=
  match s with
  | EmptyString => EmptyString
  | String c s' => String (lower_char c) (lower s')
  end.

(** [p in s] *)
Fixpoint str_in (p s : string) : bool :=
  String.prefix p s ||
  match s with
  | EmptyString => false
  | String _ s' => str_in p s'
  end.

(** [s[:30]] *)
Definition first_30 (s : string) : string := String.substring 0 30 s.

(** ** The table of [analyze] *)

(** The columns of [_display_share_table] (lines 140-147). *)
Definition table_columns (show_suggestions : bool) : list string :=
  [ "Campaign"; "Keyword"; "Country"; "Share"; "Rank"; "Current Bid" ]%string
  ++ (if show_suggestions then [ "Suggested"%string ] else []).

(** [row_values] (lines 150-159) *)
Definition row_values (show_suggestions : bool) (row : KeywordShareData)
  : result (list string) :=
  share ← share_range row;
  Ok ([ first_30 (campaign_name row); keyword row; country row; share;
        rank_str row; bid_str row ]
      ++ (if show_suggestions then [ suggested_bid_str row ] else [])).

(** The loop of [_display_share_table] (lines 149-160): the rows of [table]
    after [data]. *)
Fixpoint add_rows (show_suggestions : bool) (table : list (list string))
    (data : list KeywordShareData) : result (list (list string)) :=
  match data with
  | [] => Ok table
  | row :: data' =>
      cells ← row_values show_suggestions row;
      add_rows show_suggestions (table ++ [cells]) data'
  end.

(** [_display_share_table] (lines 136-162): the columns and the rows of the
    table that is printed; nothing is printed when a row raises. *)
Definition _display_share_table (data : list KeywordShareData) (show_suggestions : bool)
  : result (list string * list (list string)) :=
  rows ← add_rows show_suggestions [] data;
  Ok (table_columns show_suggestions, rows).

(** ** The rest of [analyze] *)

(** The campaign filter (lines 263-266). *)
Definition campaign_filter (campaign : option string)
    (data : list KeywordShareData) : list KeywordShareData :=
  match campaign with
  | Some c =>
      if str_truthy campaign then
        let pattern := lower (replace_stars c) in
        List.filter (fun d => str_in pattern (lower (campaign_name d))) data
      else data
  | None => data
  end.

(** [d.high_share and d.high_share < 0.3] (line 283) *)
Definition counted_low (d : KeywordShareData) : bool :=
  match high_share d with
  | Some h => Float64.truthy h && (h <? 0.3)%float
  | None => false
  end.

(** [sum(1 for d in data if d.high_share and d.high_share < 0.3)] *)
Definition low_share_count (data : list KeywordShareData) : Z :=
  Z.of_nat (length (List.filter counted_low data)).

(** What [analyze] prints from the parsed rows on. *)
Inductive analyze_outcome : Type :=
| NoMatch
| Analysis (columns : list string) (rows : list (list string))
           (total : Z) (low_share : Z)
| Uncaught (e : exn).

(** [analyze_impression_share] (lines 260-285), from the report, which has
    rows, and the bids that were fetched. An exception of the table is not
    caught. *)
Definition analyze_impression_share (campaign : option string) (min_share : option float)
    (suggest : bool) (report : Report.ImpressionShareReport)
    (keywords_by_id : gmap Z KeywordInfo) : analyze_outcome :=
  let data := _parse_report_data report keywords_by_id in
  let data := campaign_filter campaign data in
  match analyze_rows min_share data with
  | None => NoMatch
  | Some data =>
      match _display_share_table data suggest with
      | Raise e => Uncaught e
      | Ok (columns, rows) =>
          Analysis columns rows (Z.of_nat (length data)) (low_share_count data)
      end
  end.

(** ** The answers of the API client

    The types of [asa_api_client] that the commands read when they fetch the
    bids, with the fields the code reads. A listing call that raises is
    [None]: the command prints the error and returns. *)

Module Api.

(** [kw.bid_amount]: the text of the amount and the currency. *)
Record Money : Type := mkMoney {
  amount : string;
  currency : string
}.

(** A keyword; [if kw.bid_amount] holds of every bid that is not [None]. *)
Record Keyword : Type := mkKeyword {
  kw_id : Z;
  bid_amount : option Money
}.

(** An ad group with the answer of its [keywords.list]. *)
Record AdGroup : Type := mkAdGroup {
  ag_id : Z;
  keywords : option (list Keyword)
}.

(** A campaign with the answer of its [ad_groups.list]. *)
Record Campaign : Type := mkCampaign {
  camp_id : Z;
  camp_name : string;
  ad_groups : option (list AdGroup)
}.

End Api.

(** A [for] loop whose body may raise: the state after the list, [None] as
    soon as the body raises. *)
Fixpoint for_each {A S : Type} (body : S -> A -> option S) (l : list A) (s : S)
  : option S :=
  match l with
  | [] => Some s
  | a :: l' =>
      match body s a with
      | Some s' => for_each body l' s'
      | None => None
      end
  end.

Section Fetch.

(** [Decimal(text)] for the text of an amount, [None] when it raises. *)
Variable Decimal_of_str : string -> option Decimal.

(** *** [optimize] (lines 353-375) *)

(** [keywords_by_id] and [keyword_paths] *)
Definition lookups : Type := gmap Z KeywordInfo * gmap Z (Z * Z).

Definition optimize_keyword (camp ag : Z) (acc : lookups) (kw : Api.Keyword)
  : option lookups :=
  match Api.bid_amount kw with
  | Some money =>
      match Decimal_of_str (Api.amount money) with
      | Some bid =>
          Some (<[Api.kw_id kw := mkKeywordInfo (Some bid) (Some (Api.currency money))]>
                  (fst acc),
                <[Api.kw_id kw := (camp, ag)]> (snd acc))
      | None => None
      end
  | None => Some acc
  end.

Definition optimize_ad_group (camp : Z) (acc : lookups) (ag : Api.AdGroup)
  : option lookups :=
  match Api.keywords ag with
  | Some kws => for_each (optimize_keyword camp (Api.ag_id ag)) kws acc
  | None => None
  end.

Definition optimize_campaign (acc : lookups) (camp : Api.Campaign) : option lookups :=
  match Api.ad_groups camp with
  | Some ags => for_each (optimize_ad_group (Api.camp_id camp)) ags acc
  | None => None
  end.

(** The two lookups, from the answer of [campaigns.list]; [None] when a call
    of the client or [Decimal] raises. *)
Definition optimize_fetch (campaigns_resp : option (list Api.Campaign)) : option lookups :=
  match campaigns_resp with
  | Some campaigns => for_each optimize_campaign campaigns (∅, ∅)
  | None => None
  end.

(** *** [analyze] (lines 233-258) *)

Definition analyze_keyword (acc : gmap Z KeywordInfo) (kw : Api.Keyword)
  : option (gmap Z KeywordInfo) :=
  match Api.bid_amount kw with
  | Some money =>
      match Decimal_of_str (Api.amount money) with
      | Some bid =>
          Some (<[Api.kw_id kw := mkKeywordInfo (Some bid) (Some (Api.currency money))]> acc)
      | None => None
      end
  | None => Some acc
  end.

Definition analyze_ad_group (acc : gmap Z KeywordInfo) (ag : Api.AdGroup)
  : option (gmap Z KeywordInfo) :=
  match Api.keywords ag with
  | Some kws => for_each analyze_keyword kws acc
  | None => None
  end.

(** [campaign and campaign.replace("*", "") not in camp.name] (line 240) *)
Definition skipped_campaign (campaign : option string) (camp : Api.Campaign) : bool :=
  match campaign with
  | Some c => str_truthy campaign && negb (str_in (replace_stars c) (Api.camp_name camp))
  | None => false
  end.

Definition analyze_campaign (campaign : option string) (acc : gmap Z KeywordInfo)
    (camp : Api.Campaign) : option (gmap Z KeywordInfo) :=
  if skipped_campaign campaign camp then Some acc
  else
    match Api.ad_groups camp with
    | Some ags => for_each analyze_ad_group ags acc
    | None => None
    end.

Definition analyze_fetch (campaign : option string)
    (campaigns_resp : option (list Api.Campaign)) : option (gmap Z KeywordInfo) :=
  match campaigns_resp with
  | Some campaigns => for_each (analyze_campaign campaign) campaigns ∅
  | None => None
  end.

End Fetch.

(** ** The loop of [optimize] *)

(** The answer of [Prompt.ask] with the choices "y", "n", "c" and "q". *)
Inductive action : Type :=
| act_y
| act_n
| act_c
| act_q.

(** The amount of an update: a number, or one of the special values that
    [Decimal] reads from a text ("NaN", "Infinity", ...). *)
Inductive amount : Type :=
| Number (d : Decimal)
| Special (text : string).

(** What happens at one keyword that is prompted for: the action chosen, what
    [Decimal(custom)] makes of the custom bid entered ([None] when it
    raises), and whether the update call of the client raises. *)
Record turn : Type := mkTurn {
  answer : action;
  custom : option amount;
  update_raises : bool
}.

(** A call of [keywords.update]: the campaign, the ad group, the keyword, and
    the amount and the currency of the new bid. *)
Record call : Type := mkCall {
  call_campaign : Z;
  call_ad_group : Z;
  call_keyword : Z;
  call_amount : amount;
  call_currency : string
}.

(** The counters of the loop, the update calls made so far, those that
    raised among them, and the number of "Update failed" messages. *)
Record tally : Type := mkTally {
  updates_made : Z;
  updates_skipped : Z;
  calls : list call;
  failures : Z
}.

Definition no_updates : tally := mkTally 0 0 [] 0.

(** The update of a bid (lines 426-437 and 442-456). *)
Definition update_bid (keyword_paths : gmap Z (Z * Z)) (kw : KeywordShareData)
    (bid : amount) (raises : bool) (t : tally) : tally :=
  match keyword_paths !! keyword_id kw with
  | Some (camp_id, ag_id) =>
      let c := mkCall camp_id ag_id (keyword_id kw) bid (currency kw) in
      if raises
      then mkTally (updates_made t) (updates_skipped t) (calls t ++ [c]) (failures t + 1)
      else mkTally (updates_made t + 1) (updates_skipped t) (calls t ++ [c]) (failures t)
  | None => t
  end.

(** The branches of the loop on the action (lines 417-460), [None] for
    [break]. *)
Definition act (keyword_paths : gmap Z (Z * Z)) (kw : KeywordShareData)
    (u : turn) (t : tally) : option tally :=
  match answer u with
  | act_q => None
  | act_c =>
      match custom u with
      | Some custom_bid => Some (update_bid keyword_paths kw custom_bid (update_raises u) t)
      | None =>
          Some (mkTally (updates_made t) (updates_skipped t) (calls t) (failures t + 1))
      end
  | act_y =>
      Some (update_bid keyword_paths kw (Number (suggested_bid kw)) (update_raises u) t)
  | act_n =>
      Some (mkTally (updates_made t) (updates_skipped t + 1) (calls t) (failures t))
  end.

(** The loop (lines 396-460) from the keyword of index [i] on: the tally at
    its end and the exception that ended it, if one did. [user i] is the
    turn at the keyword of index [i]. *)
Fixpoint optimize_loop (dry_run : bool) (keyword_paths : gmap Z (Z * Z))
    (user : nat -> turn) (i : nat) (data : list KeywordShareData) (t : tally)
  : tally * option exn :=
  match data with
  | [] => (t, None)
  | kw :: data' =>
      match share_range kw with
      | Raise e => (t, Some e)
      | Ok _ =>
          if dry_run then optimize_loop dry_run keyword_paths user (S i) data' t
          else
            match act keyword_paths kw (user i) t with
            | Some t' => optimize_loop dry_run keyword_paths user (S i) data' t'
            | None => (t, None)
            end
      end
  end.

(** [interactive_bid_optimizer] (lines 377-463), from the report, which has
    rows, and the lookups that were fetched; [None] when it returns with "no
    optimization needed", before the loop. *)
Definition interactive_bid_optimizer (max_share : float) (dry_run : bool)
    (user : nat -> turn) (report : Report.ImpressionShareReport)
    (fetched : lookups) : option (tally * option exn) :=
  match optimize_rows max_share (_parse_report_data report (fst fetched)) with
  | None => None
  | Some data => Some (optimize_loop dry_run (snd fetched) user 0 data no_updates)
  end.

(** ** The summary table of [report] *)

(** The cell "Share" (lines 572-574). *)
Definition summary_share (row : Report.Row) : result string :=
  low ← percent_or (Report.low_impression_share row) "0";
  high ← percent_or (Report.high_impression_share row) "?";
  Ok (String.append low (String.append "-" (String.append high "%"))).

(** The cells of a row (lines 571-582). *)
Definition summary_row (row : Report.Row) : result (list string) :=
  let meta := Report.metadata row in
  share_range ← summary_share row;
  Ok [ first_30 (str_or (Report.campaign_name meta) "");
       str_or (Report.keyword meta) "";
       str_or (Report.country_or_region meta) "";
       share_range;
       match Report.rank row with
       | Some r => if r =? 0 then "-"%string else pretty r
       | None => "-"%string
       end ].

Fixpoint summary_rows (table : list (list string)) (rows : list Report.Row)
  : result (list (list string)) :=
  match rows with
  | [] => Ok table
  | row :: rows' =>
      cells ← summary_row row;
      summary_rows (table ++ [cells]) rows'
  end.

(** The summary (lines 562-587): the rows of the table and whether the
    message "Showing first 50 of ..." follows it. *)
Definition summary_table (report : Report.ImpressionShareReport)
  : result (list (list string) * bool) :=
  rows ← summary_rows [] (firstn 50 (Report.row report));
  Ok (rows, (50 <? Z.of_nat (length (Report.row report)))).

(* ===================================================================== *)
(** * Part II: the vocabulary of the statements                           *)
(* ===================================================================== *)

(** ** binary64 in closed form *)

Module Binary64.

(** [x <= x] holds of every float but NaN. *)
Definition comparable (x : float) : Prop := (x <=? x)%float = true.

(** The invariant of the data model: a share lies in [0, 1]. *)
Definition unit_share (x : float) : Prop :=
  (0 <=? x)%float = true /\ (x <=? 1)%float = true.

(** Round to nearest, ties to even, of [M / 2^n] for [0 < n]. *)
Definition rne (M n : Z) : Z :=
  let q := M / 2 ^ n in
  if Z.odd (M / 2 ^ (n - 1)) && (negb (M mod 2 ^ (n - 1) =? 0) || Z.odd q)
  then q + 1 else q.

(** The float of sign [s], mantissa [z >= 0] and exponent [e], an infinity
    when the exponent is above the range. *)
Definition fin (s : bool) (z e : Z) : spec_float :=
  match z with
  | Z0 => S754_zero s
  | Zpos p => if e <=? emax - prec then S754_finite s p e else S754_infinity s
  | Zneg _ => S754_nan
  end.

(** The constants of [suggested_bid] as mantissa and exponent. *)
Definition sf100 : spec_float := S754_finite false 7036874417766400 (-46).
Definition sf0_1 : spec_float := S754_finite false 7205759403792794 (-56).
Definition sf0_3 : spec_float := S754_finite false 5404319552844595 (-54).
Definition sf0_5 : spec_float := S754_finite false 4503599627370496 (-53).
Definition sf10 : spec_float := S754_finite false 5629499534213120 (-49).
Definition sf30 : spec_float := S754_finite false 8444249301319680 (-48).
Definition sf50 : spec_float := S754_finite false 7036874417766400 (-47).

End Binary64.

(** ** Parsing *)

(** The output of one row of the report: no record or one. *)
Definition row_output (keywords_by_id : gmap Z KeywordInfo) (row : Report.Row)
  : list KeywordShareData :=
  parse_row keywords_by_id [] row.

(** The rows [_parse_report_data] keeps: those with a keyword id other
    than [None] and 0 and a keyword other than [None] and "". *)
Definition kept_row (row : Report.Row) : bool :=
  int_truthy (Report.keyword_id (Report.metadata row))
  && str_truthy (Report.keyword (Report.metadata row)).

(** What the record [d] made from the row [row] holds. *)
Definition parsed_from (keywords_by_id : gmap Z KeywordInfo)
    (row : Report.Row) (d : KeywordShareData) : Prop :=
  let meta := Report.metadata row in
  Report.keyword_id meta = Some (keyword_id d) /\
  Report.keyword meta = Some (keyword d) /\
  campaign_id d = default 0 (Report.campaign_id meta) /\
  campaign_name d = default ""%string (Report.campaign_name meta) /\
  ad_group_id d = default 0 (Report.ad_group_id meta) /\
  ad_group_name d = default ""%string (Report.ad_group_name meta) /\
  country d = default ""%string (Report.country_or_region meta) /\
  (keywords_by_id !! keyword_id d = None ->
     current_bid d = Decimal_0 /\ currency d = "USD"%string) /\
  (forall info, keywords_by_id !! keyword_id d = Some info ->
     current_bid d = default Decimal_0 (bid info) /\
     currency d = default "USD"%string (kw_currency info)) /\
  low_share d = Report.low_impression_share row /\
  high_share d = Report.high_impression_share row /\
  rank d = Report.rank row /\
  search_popularity d = Report.search_popularity row.

(** ** Sorting *)

(** The order of the sorted rows: the key of the first is at most the key
    of the second. *)
Definition share_le (a b : KeywordShareData) : Prop :=
  (share_key a <=? share_key b)%float = true.

(** The share of the row is a number (not a NaN) when it is present. *)
Definition share_comparable (d : KeywordShareData) : Prop :=
  match high_share d with
  | Some h => Binary64.comparable h
  | None => True
  end.

(** ** The period and the export *)

(** The number of days a command looks back. *)
Definition clamped (days : Z) : Z := if 30 <? days then 30 else days.


(** ** Sample data *)

(** A row with the given bid and shares. *)
Definition sample_row (bid : Decimal) (low high : option float) : KeywordShareData :=
  mkKeywordShareData 11 "Brand" 22 "Exact" 33 "running shoes" "US" bid "USD"
    low high (Some 2) (Some 40).

Definition one_dollar : Decimal := mkDecimal false 100 (-2).

(** A row whose share is exactly one half. *)
Definition half_share_row : KeywordShareData :=
  sample_row one_dollar (Some 0.4%float) (Some 0.5%float).

Definition unsorted_rows : list KeywordShareData :=
  [ sample_row one_dollar None (Some 0.4%float);
    sample_row one_dollar None None;
    sample_row one_dollar None (Some 0.05%float);
    sample_row one_dollar None (Some 0.2%float) ].

(** A row of the report without any metadata, and one with all of it. *)
Definition bare_row : Report.Row :=
  Report.mkRow (Report.mkMetadata None None None None None None None)
    (Some 0.1%float) (Some 0.2%float) None None.

Definition full_row : Report.Row :=
  Report.mkRow
    (Report.mkMetadata (Some 11) (Some "Brand"%string) (Some 22) (Some "Exact"%string)
       (Some 33) (Some "running shoes"%string) (Some "US"%string))
    (Some 0.1%float) (Some 0.2%float) (Some 1) (Some 50).

Definition two_row_report : Report.ImpressionShareReport :=
  Report.mkReport [full_row; bare_row].

(** ** The rest of the module *)

(** [int(x)] on the specification of a float. *)
Definition sf_to_int (x : spec_float) : result Z :=
  match x with
  | S754_zero _ => Ok 0
  | S754_finite s m e =>
      let v := Z.shiftl (Zpos m) e in
      Ok (if s then - v else v)
  | S754_infinity _ => Raise OverflowError
  | S754_nan => Raise ValueError
  end.

Definition sf1 : spec_float := S754_finite false 4503599627370496 (-52).

(** [math.isnan(x)] *)
Definition isnan (x : float) : Prop := PrimFloat.is_nan x = true.

(** A share that is present lies in [0, 1]. *)
Definition unit_or_none (x : option float) : Prop :=
  match x with
  | Some f => Binary64.unit_share f
  | None => True
  end.

(** [bool(x)] for [x : float | None] *)
Definition share_truthy (x : option float) : bool :=
  match x with
  | Some f => Float64.truthy f
  | None => false
  end.

(** The two lookups of [optimize] have the same keys, and every entry of
    [keywords_by_id] has a bid and a currency. *)
Definition aligned (acc : lookups) : Prop :=
  forall k : Z,
    (fst acc !! k = None <-> snd acc !! k = None) /\
    (forall info, fst acc !! k = Some info ->
       exists b c, info = mkKeywordInfo (Some b) (Some c)).

(** The bids [analyze] has fetched are those of the lookups of [optimize]. *)
Definition same_bids (bids : gmap Z KeywordInfo) (acc : lookups) : Prop := bids = fst acc.

(** The counters of [t] and its calls, against those of [t0] before at most
    [n] keywords: each keyword adds one to at most one of the three
    counters, and one call at most, which is counted as an update or as a
    failure. *)
Definition accounted (n : Z) (t0 t : tally) : Prop :=
  let made := updates_made t - updates_made t0 in
  let skipped := updates_skipped t - updates_skipped t0 in
  let failed := failures t - failures t0 in
  let called := Z.of_nat (length (calls t)) - Z.of_nat (length (calls t0)) in
  0 <= made /\ 0 <= skipped /\ 0 <= failed /\
  made <= called <= made + failed /\
  made + skipped + failed <= n.

(** The two users give the same answers and enter the same custom bids. *)
Definition same_answers (user1 user2 : nat -> turn) : Prop :=
  forall i, answer (user1 i) = answer (user2 i) /\ custom (user1 i) = custom (user2 i).

(** A call of the loop over the keywords [data]: it goes to the path of one
    of them, with its currency, and carries the suggested bid, which is above
    the current one, or a custom bid that was entered. *)
Definition call_of (keyword_paths : gmap Z (Z * Z)) (user : nat -> turn)
    (data : list KeywordShareData) (c : call) : Prop :=
  exists kw, In kw data /\
    call_keyword c = keyword_id kw /\
    keyword_paths !! keyword_id kw = Some (call_campaign c, call_ad_group c) /\
    call_currency c = currency kw /\
    ((call_amount c = Number (suggested_bid kw) /\
      decimal.gtb (suggested_bid kw) (current_bid kw) = true) \/
     (exists i, answer (user i) = act_c /\ custom (user i) = Some (call_amount c))).

(** A user who accepts every suggestion, and one who quits at once; the
    updates of the first raise when [raises] says so. *)
Definition accepting (raises : nat -> bool) (i : nat) : turn :=
  mkTurn act_y None (raises i).

Definition quitting (i : nat) : turn := mkTurn act_q None false.

(** Three keywords to optimize, and their paths. *)
Definition three_keywords : list KeywordShareData :=
  [ mkKeywordShareData 1 "Brand" 2 "Exact" 31 "shoes" "US" one_dollar "USD"
      None (Some 0.05%float) (Some 3) None;
    mkKeywordShareData 1 "Brand" 2 "Exact" 32 "boots" "US" one_dollar "USD"
      (Some 0.1%float) (Some 0.2%float) None None;
    mkKeywordShareData 1 "Brand" 2 "Exact" 33 "socks" "US" one_dollar "USD"
      (Some 0.3%float) (Some 0.4%float) (Some 1) None ].

Definition three_paths : gmap Z (Z * Z) :=
  <[31 := (1, 2)]> (<[32 := (1, 2)]> (<[33 := (1, 2)]> ∅)).



(* ===================================================================== *)
(** * Part III: arithmetic of the embedded types and the loops            *)
(* ===================================================================== *)

(** ** The order of binary64 *)

Module SF.

Ltac cmp_cases :=
  repeat match goal with
  | |- context [Z.compare ?a ?b] => destruct (Z.compare_spec a b)
  | H : context [Z.compare ?a ?b] |- _ => destruct (Z.compare_spec a b)
  end.

Ltac by_cases :=
  repeat match goal with s : bool |- _ => destruct s end;
  try discriminate; try reflexivity;
  repeat match goal with
  | |- context [Pos.compare_cont Eq ?p ?q] =>
      change (Pos.compare_cont Eq p q) with (Zpos p ?= Zpos q)
  | H : context [Pos.compare_cont Eq ?p ?q] |- _ =>
      change (Pos.compare_cont Eq p q) with (Zpos p ?= Zpos q) in H
  end;
  intros; cmp_cases; simpl in *; try discriminate; try reflexivity; try lia.

Lemma SFleb_trans (a b c : spec_float) :
  SFleb a b = true -> SFleb b c = true -> SFleb a c = true.
Proof.
  unfold SFleb, SFcompare.
  destruct a as [sa|sa| |sa ma ea], b as [sb|sb| |sb mb eb], c as [sc|sc| |sc mc ec];
    try discriminate; try reflexivity; by_cases.
Qed.

Lemma SFleb_refl (a : spec_float) : a <> S754_nan -> SFleb a a = true.
Proof.
  unfold SFleb, SFcompare. destruct a as [s|s| |s m e]; try congruence; by_cases.
Qed.

Lemma SFleb_not_nan (a b : spec_float) :
  SFleb a b = true -> a <> S754_nan /\ b <> S754_nan.
Proof. destruct a, b; try discriminate; split; discriminate. Qed.

Lemma SFltb_not_nan (a b : spec_float) :
  SFltb a b = true -> a <> S754_nan /\ b <> S754_nan.
Proof. destruct a, b; try discriminate; split; discriminate. Qed.

Lemma SFltb_leb (a b : spec_float) : SFltb a b = true -> SFleb a b = true.
Proof. unfold SFltb, SFleb. destruct (SFcompare a b) as [[]|]; congruence. Qed.

Lemma SFltb_antisym (a b : spec_float) : SFltb a b = true -> SFleb b a = false.
Proof.
  unfold SFleb, SFltb, SFcompare.
  destruct a as [sa|sa| |sa ma ea], b as [sb|sb| |sb mb eb];
    try discriminate; try reflexivity; by_cases.
Qed.

Lemma SFleb_total (a b : spec_float) :
  a <> S754_nan -> b <> S754_nan -> SFltb a b = false -> SFleb b a = true.
Proof.
  unfold SFleb, SFltb, SFcompare.
  destruct a as [sa|sa| |sa ma ea], b as [sb|sb| |sb mb eb];
    try congruence; try reflexivity; by_cases.
Qed.

End SF.

(** ** Rounding in binary64

    [SpecFloat] computes a product by shifting the exact product of the
    mantissas to the right and rounding to nearest, ties to even. The
    lemmas below give that computation in closed form. *)

Module Round.

Import Binary64.

Lemma iter_pos_nat {A} (f : A -> A) p x :
  SpecFloat.iter_pos f p x = Nat.iter (Pos.to_nat p) f x.
Proof.
  revert x. induction p as [p IH|p IH|]; intros x; cbn [SpecFloat.iter_pos].
  - rewrite !IH, Pos2Nat.inj_xI, <- Nat.iter_add, <- Nat.iter_succ_r.
    f_equal. lia.
  - rewrite !IH, Pos2Nat.inj_xO, <- Nat.iter_add. f_equal. lia.
  - reflexivity.
Qed.

Lemma shr_1_nonneg m r s :
  0 <= m -> shr_1 (Build_shr_record m r s) = Build_shr_record (m / 2) (Z.odd m) (r || s).
Proof.
  intros Hm. rewrite <- Z.div2_div.
  destruct m as [|[p|p|]|]; try reflexivity. lia.
Qed.

Lemma shr_iter M k :
  0 <= M ->
  Nat.iter (S k) shr_1 (Build_shr_record M false false)
  = Build_shr_record (M / 2 ^ Z.of_nat (S k)) (Z.odd (M / 2 ^ Z.of_nat k))
      (negb (M mod 2 ^ Z.of_nat k =? 0)).
Proof.
  intros HM. induction k as [|k IH].
  - rewrite Nat.iter_succ. change (Nat.iter 0 shr_1 ?x) with x.
    rewrite shr_1_nonneg by assumption.
    change (2 ^ Z.of_nat 1) with 2. change (2 ^ Z.of_nat 0) with 1.
    now rewrite Z.div_1_r, Z.mod_1_r.
  - rewrite Nat.iter_succ, IH.
    assert (Hp : 0 < 2 ^ Z.of_nat k) by (apply Z.pow_pos_nonneg; lia).
    rewrite shr_1_nonneg by (apply Z.div_pos; [assumption | apply Z.pow_pos_nonneg; lia]).
    assert (E1 : 2 ^ Z.of_nat (S k) = 2 ^ Z.of_nat k * 2)
      by (rewrite Nat2Z.inj_succ, Z.pow_succ_r by lia; lia).
    assert (E2 : 2 ^ Z.of_nat (S (S k)) = 2 ^ Z.of_nat (S k) * 2)
      by (rewrite (Nat2Z.inj_succ (S k)), Z.pow_succ_r by lia; lia).
    f_equal.
    + rewrite E2, Z.div_div by lia. reflexivity.
    + rewrite E1, Z.rem_mul_r, Zmod_odd by lia.
      pose proof (Z.mod_pos_bound M (2 ^ Z.of_nat k) Hp).
      destruct (Z.odd (M / 2 ^ Z.of_nat k)); cbn [orb];
        destruct (Z.eqb_spec (M mod 2 ^ Z.of_nat k) 0);
        match goal with |- context [?a =? 0] => destruct (Z.eqb_spec a 0) end;
        cbn [negb]; try reflexivity; lia.
Qed.

Lemma digits2_bounds p :
  2 ^ (Zpos (digits2_pos p) - 1) <= Zpos p < 2 ^ Zpos (digits2_pos p).
Proof.
  induction p as [p IH|p IH|]; cbn [digits2_pos].
  - rewrite Pos2Z.inj_succ, Z.pow_succ_r by lia.
    replace (Z.succ (Zpos (digits2_pos p)) - 1) with (Z.succ (Zpos (digits2_pos p) - 1)) by lia.
    rewrite Z.pow_succ_r by lia. lia.
  - rewrite Pos2Z.inj_succ, Z.pow_succ_r by lia.
    replace (Z.succ (Zpos (digits2_pos p)) - 1) with (Z.succ (Zpos (digits2_pos p) - 1)) by lia.
    rewrite Z.pow_succ_r by lia. lia.
  - change (2 ^ (1 - 1)) with 1. change (2 ^ 1) with 2. lia.
Qed.

Lemma digits2_unique p d :
  2 ^ (d - 1) <= Zpos p < 2 ^ d -> Zpos (digits2_pos p) = d.
Proof.
  intros [Hlo Hhi]. pose proof (digits2_bounds p) as [Blo Bhi].
  assert (0 < d).
  { destruct (Z.ltb_spec 0 d); [assumption|].
    destruct (Z.eq_dec d 0) as [->|]; [change (2 ^ 0) with 1 in Hhi; lia|].
    rewrite Z.pow_neg_r in Hhi by lia. lia. }
  destruct (Z.lt_trichotomy (Zpos (digits2_pos p)) d) as [Hlt|[Heq|Hgt]]; [|assumption|].
  - assert (2 ^ Zpos (digits2_pos p) <= 2 ^ (d - 1)) by (apply Z.pow_le_mono_r; lia). lia.
  - assert (2 ^ d <= 2 ^ (Zpos (digits2_pos p) - 1)) by (apply Z.pow_le_mono_r; lia). lia.
Qed.

Lemma shr_rne M n :
  0 <= M -> 0 < n ->
  let mrs := fst (shr (Build_shr_record M false false) 0 n) in
  round_nearest_even (shr_m mrs) (loc_of_shr_record mrs) = rne M n.
Proof.
  intros HM Hn. destruct n as [|p|p]; try lia.
  cbn [shr fst]. rewrite iter_pos_nat.
  destruct (Pos2Nat.is_succ p) as [k Hk]. rewrite Hk, shr_iter by assumption.
  assert (Ek : Z.of_nat k = Zpos p - 1) by lia.
  assert (ESk : Z.of_nat (S k) = Zpos p) by lia.
  rewrite Ek, ESk. unfold rne. cbn [shr_m loc_of_shr_record].
  destruct (Z.odd (M / 2 ^ (Zpos p - 1))), (M mod 2 ^ (Zpos p - 1) =? 0);
    cbn [negb orb andb loc_of_shr_record round_nearest_even]; try reflexivity.
  rewrite <- Z.negb_odd. destruct (Z.odd (M / 2 ^ Zpos p)); reflexivity.
Qed.

Lemma rne_bounds M n : 0 <= M -> 0 < n -> M / 2 ^ n <= rne M n <= M / 2 ^ n + 1.
Proof. intros. unfold rne. destruct (_ && _); lia. Qed.

Lemma fexp_eq e : fexp prec emax e = Z.max (e - 53) (-1074).
Proof. reflexivity. Qed.

Lemma binary_round_aux_exact s M E :
  let n := fexp prec emax (Zpos (digits2_pos M) + E) - E in
  binary_round_aux prec emax s (Zpos M) E loc_Exact =
  if n <=? 0 then fin s (Zpos M) E
  else let m1 := rne (Zpos M) n in
       if m1 =? 2 ^ 53 then fin s (2 ^ 52) (E + n + 1) else fin s m1 (E + n).
Proof.
  intros n. unfold binary_round_aux, shr_fexp.
  cbn [Zdigits2 shr_record_of_loc]. fold n.
  destruct (Z.leb_spec n 0) as [Hn|Hn].
  - replace (shr {| shr_m := Zpos M; shr_r := false; shr_s := false |} E n)
      with ({| shr_m := Zpos M; shr_r := false; shr_s := false |}, E)
      by (destruct n; try reflexivity; lia).
    cbn [shr_m loc_of_shr_record round_nearest_even Zdigits2]. fold n.
    replace (shr {| shr_m := Zpos M; shr_r := false; shr_s := false |} E n)
      with ({| shr_m := Zpos M; shr_r := false; shr_s := false |}, E)
      by (destruct n; try reflexivity; lia).
    reflexivity.
  - pose proof (shr_rne (Zpos M) n ltac:(lia) Hn) as Hr. cbn zeta in Hr.
    pose proof (rne_bounds (Zpos M) n ltac:(lia) Hn) as Hb.
    pose proof (digits2_bounds M) as [Dlo Dhi].
    assert (Hn53 : Zpos (digits2_pos M) <= n + 53) by (unfold n; rewrite fexp_eq; lia).
    assert (Hq : Zpos M / 2 ^ n < 2 ^ 53).
    { apply Z.div_lt_upper_bound; [apply Z.pow_pos_nonneg; lia|].
      rewrite <- Z.pow_add_r by lia.
      assert (2 ^ Zpos (digits2_pos M) <= 2 ^ (n + 53)) by (apply Z.pow_le_mono_r; lia).
      lia. }
    assert (Hq0 : 0 <= Zpos M / 2 ^ n) by (apply Z.div_pos; [lia|apply Z.pow_pos_nonneg; lia]).
    assert (He1 : -1074 <= E + n) by (unfold n; rewrite fexp_eq; lia).
    destruct n as [|p|p]; try lia.
    cbn [shr fst] in Hr |- *.
    destruct (SpecFloat.iter_pos shr_1 p
                {| shr_m := Zpos M; shr_r := false; shr_s := false |}) as [m r st] eqn:Hit.
    cbn [shr_m] in *. rewrite Hr. cbn zeta.
    set (m1 := rne (Zpos M) (Zpos p)) in *.
    destruct (Z.eqb_spec m1 (2 ^ 53)) as [E53|N53].
    + rewrite E53. change (Zdigits2 (2 ^ 53)) with 54. rewrite fexp_eq.
      replace (Z.max (54 + (E + Zpos p) - 53) (-1074) - (E + Zpos p)) with 1 by lia.
      reflexivity.
    + destruct m1 as [|q|q] eqn:Em1; try lia.
      * cbn [Zdigits2]. rewrite fexp_eq.
        replace (shr {| shr_m := 0; shr_r := false; shr_s := false |} (E + Zpos p)
                  (Z.max (0 + (E + Zpos p) - 53) (-1074) - (E + Zpos p)))
          with ({| shr_m := 0; shr_r := false; shr_s := false |}, E + Zpos p).
        { reflexivity. }
        destruct (Z.max (0 + (E + Zpos p) - 53) (-1074) - (E + Zpos p)) eqn:Ez; try reflexivity; lia.
      * cbn [Zdigits2]. rewrite fexp_eq.
        assert (Zpos (digits2_pos q) <= 53).
        { pose proof (digits2_bounds q) as [Qlo Qhi].
          destruct (Z.leb_spec (Zpos (digits2_pos q)) 53); [assumption|].
          assert (2 ^ 53 <= 2 ^ (Zpos (digits2_pos q) - 1)) by (apply Z.pow_le_mono_r; lia).
          lia. }
        replace (shr {| shr_m := Zpos q; shr_r := false; shr_s := false |} (E + Zpos p)
                  (Z.max (Zpos (digits2_pos q) + (E + Zpos p) - 53) (-1074) - (E + Zpos p)))
          with ({| shr_m := Zpos q; shr_r := false; shr_s := false |}, E + Zpos p).
        { reflexivity. }
        destruct (Z.max (Zpos (digits2_pos q) + (E + Zpos p) - 53) (-1074) - (E + Zpos p)) eqn:Ez; try reflexivity; lia.
Qed.

Lemma rne_nonneg M n : 0 <= M -> 0 < n -> 0 <= rne M n.
Proof.
  intros HM Hn. pose proof (rne_bounds M n HM Hn).
  assert (0 <= M / 2 ^ n) by (apply Z.div_pos; [lia|apply Z.pow_pos_nonneg; lia]). lia.
Qed.

Lemma rne_scale k P n :
  0 <= k -> 0 < n -> rne (2 ^ k * P) (n + k) = rne P n.
Proof.
  intros Hk Hn. unfold rne.
  assert (Hpk : 0 < 2 ^ k) by (apply Z.pow_pos_nonneg; lia).
  assert (Hpn : 0 < 2 ^ n) by (apply Z.pow_pos_nonneg; lia).
  assert (Hpn1 : 0 < 2 ^ (n - 1)) by (apply Z.pow_pos_nonneg; lia).
  replace (2 ^ (n + k)) with (2 ^ k * 2 ^ n) by (rewrite <- Z.pow_add_r by lia; f_equal; lia).
  replace (2 ^ (n + k - 1)) with (2 ^ k * 2 ^ (n - 1)) by (rewrite <- Z.pow_add_r by lia; f_equal; lia).
  rewrite !Z.div_mul_cancel_l, Z.mul_mod_distr_l by lia.
  replace (2 ^ k * (P mod 2 ^ (n - 1)) =? 0) with (P mod 2 ^ (n - 1) =? 0); [reflexivity|].
  destruct (Z.eqb_spec (P mod 2 ^ (n - 1)) 0), (Z.eqb_spec (2 ^ k * (P mod 2 ^ (n - 1))) 0);
    try reflexivity; nia.
Qed.

Lemma bounded_cases m e :
  bounded prec emax m e = true ->
  -1074 <= e <= 971 /\ Zpos m < 2 ^ 53 /\ (2 ^ 52 <= Zpos m \/ e = -1074).
Proof.
  unfold bounded, canonical_mantissa. rewrite fexp_eq. intros H.
  apply andb_prop in H as [H1 H2]. apply Z.eqb_eq in H1. apply Z.leb_le in H2.
  change (emax - prec) with 971 in H2.
  pose proof (digits2_bounds m) as [Dlo Dhi].
  assert (Zpos (digits2_pos m) <= 53) by lia.
  assert (2 ^ Zpos (digits2_pos m) <= 2 ^ 53) by (apply Z.pow_le_mono_r; lia).
  repeat split; try lia.
  destruct (Z.eq_dec e (-1074)); [now right|left].
  assert (Zpos (digits2_pos m) = 53) by lia.
  replace 52 with (Zpos (digits2_pos m) - 1) by lia. assumption.
Qed.

Lemma SFleb_fin_pos z e' mT eT :
  0 <= z -> eT <= 971 ->
  SFleb (fin false z e') (S754_finite false mT eT)
  = (z =? 0) || ((e' <? eT) || ((e' =? eT) && (z <=? Zpos mT))).
Proof.
  intros Hz HT. unfold fin. destruct z as [|p|p]; try lia; try reflexivity.
  change (emax - prec) with 971. cbn [Z.eqb orb].
  destruct (Z.leb_spec e' 971).
  - unfold SFleb, SFcompare. change (Pos.compare_cont Eq p mT) with (Zpos p ?= Zpos mT).
    destruct (Z.compare_spec e' eT), (Z.ltb_spec e' eT), (Z.eqb_spec e' eT); try lia; reflexivity.
  - destruct (Z.ltb_spec e' eT), (Z.eqb_spec e' eT); try lia. reflexivity.
Qed.

Lemma SFleb_fin_neg z e' mT eT :
  0 <= z -> SFleb (fin true z e') (S754_finite false mT eT) = true.
Proof.
  intros Hz. unfold fin. destruct z as [|p|p]; try lia; try reflexivity.
  destruct (e' <=? emax - prec); reflexivity.
Qed.

Lemma SFleb_finite_pos m e mT eT :
  SFleb (S754_finite false m e) (S754_finite false mT eT)
  = (e <? eT) || ((e =? eT) && (Zpos m <=? Zpos mT)).
Proof.
  unfold SFleb, SFcompare. change (Pos.compare_cont Eq m mT) with (Zpos m ?= Zpos mT).
  destruct (Z.compare_spec e eT), (Z.ltb_spec e eT), (Z.eqb_spec e eT); try lia; reflexivity.
Qed.

(** The product of a finite value with 100, as the rounded mantissa and exponent. *)
Lemma mul100_finite s m e :
  bounded prec emax m e = true ->
  exists z e',
    SF64mul (S754_finite s m e) sf100 = fin s z e' /\
    0 <= z /\
    ((e = -1074 /\ Zpos m < 2 ^ 52 /\ e' <= -1067) \/
     (2 ^ 52 <= Zpos m /\ 25 * Zpos m < 2 ^ 57 /\
        ((z = rne (25 * Zpos m) 4 /\ z < 2 ^ 53 /\ e' = e + 6) \/
         (rne (25 * Zpos m) 4 = 2 ^ 53 /\ z = 2 ^ 52 /\ e' = e + 7))) \/
     (2 ^ 57 <= 25 * Zpos m /\ z = rne (25 * Zpos m) 5 /\ e' = e + 7)).
Proof.
  intros Hb. apply bounded_cases in Hb as (He & Hm & Hc).
  unfold SF64mul, SFmul, sf100. rewrite xorb_false_r, binary_round_aux_exact.
  set (M := (m * 7036874417766400)%positive).
  assert (EM : Zpos M = 2 ^ 48 * (25 * Zpos m)) by (unfold M; rewrite Pos2Z.inj_mul; lia).
  pose proof (digits2_bounds M) as [Dlo Dhi].
  set (d := Zpos (digits2_pos M)) in *.
  rewrite fexp_eq.
  destruct (Z.ltb_spec (Zpos m) (2 ^ 52)) as [Hsub|Hnorm].
  - (* subnormal operand *)
    assert (e = -1074) by lia. subst e.
    assert (d <= 105).
    { destruct (Z.leb_spec d 105); [assumption|].
      assert (2 ^ 105 <= 2 ^ (d - 1)) by (apply Z.pow_le_mono_r; lia). lia. }
    assert (0 < d) by (unfold d; lia).
    set (n := Z.max (d + (-1074 + -46) - 53) (-1074) - (-1074 + -46)).
    assert (Hn : 46 <= n <= 52) by lia.
    destruct (Z.leb_spec n 0); [lia|]. cbn zeta.
    pose proof (rne_nonneg (Zpos M) n ltac:(lia) ltac:(lia)).
    destruct (Z.eqb_spec (rne (Zpos M) n) (2 ^ 53)).
    + exists (2 ^ 52), (-1074 + -46 + n + 1). split; [reflexivity|]. split; [lia|]. left. lia.
    + exists (rne (Zpos M) n), (-1074 + -46 + n). split; [reflexivity|]. split; [lia|]. left. lia.
  - destruct (Z.ltb_spec (25 * Zpos m) (2 ^ 57)) as [H57|H57].
    + assert (Ed : d = 105) by (apply digits2_unique; lia).
      rewrite Ed.
      replace (Z.max (105 + (e + -46) - 53) (-1074) - (e + -46)) with (4 + 48) by lia.
      change (4 + 48 <=? 0) with false. cbn iota zeta.
      rewrite EM, rne_scale by lia.
      pose proof (rne_nonneg (25 * Zpos m) 4 ltac:(lia) ltac:(lia)).
      pose proof (rne_bounds (25 * Zpos m) 4 ltac:(lia) ltac:(lia)).
      assert (25 * Zpos m / 2 ^ 4 < 2 ^ 53) by (apply Z.div_lt_upper_bound; lia).
      destruct (Z.eqb_spec (rne (25 * Zpos m) 4) (2 ^ 53)).
      * exists (2 ^ 52), (e + 7). split; [f_equal; lia|]. split; [lia|].
        right; left. lia.
      * exists (rne (25 * Zpos m) 4), (e + 6). split; [f_equal; lia|]. split; [lia|].
        right; left. lia.
    + assert (Ed : d = 106) by (apply digits2_unique; lia).
      rewrite Ed.
      replace (Z.max (106 + (e + -46) - 53) (-1074) - (e + -46)) with (5 + 48) by lia.
      change (5 + 48 <=? 0) with false. cbn iota zeta.
      rewrite EM, rne_scale by lia.
      pose proof (rne_nonneg (25 * Zpos m) 5 ltac:(lia) ltac:(lia)).
      pose proof (rne_bounds (25 * Zpos m) 5 ltac:(lia) ltac:(lia)).
      assert (25 * Zpos m / 2 ^ 5 < 2 ^ 53 - 1) by (apply Z.div_lt_upper_bound; lia).
      destruct (Z.eqb_spec (rne (25 * Zpos m) 5) (2 ^ 53)); [lia|].
      exists (rne (25 * Zpos m) 5), (e + 7). split; [f_equal; lia|]. split; [lia|].
      right; right. lia.
Qed.

Lemma rne_cases P n :
  0 <= P -> 0 < n ->
  (rne P n = P / 2 ^ n /\ (2 * (P mod 2 ^ n) < 2 ^ n \/ (2 * (P mod 2 ^ n) = 2 ^ n /\ (P / 2 ^ n) mod 2 = 0))) \/
  (rne P n = P / 2 ^ n + 1 /\ (2 ^ n < 2 * (P mod 2 ^ n) \/ (2 * (P mod 2 ^ n) = 2 ^ n /\ (P / 2 ^ n) mod 2 = 1))).
Proof.
  intros HP Hn. unfold rne.
  assert (Hp1 : 0 < 2 ^ (n - 1)) by (apply Z.pow_pos_nonneg; lia).
  assert (En : 2 ^ n = 2 ^ (n - 1) * 2).
  { replace n with (Z.succ (n - 1)) at 1 by lia. rewrite Z.pow_succ_r by lia. lia. }
  assert (Em : P mod 2 ^ n = P mod 2 ^ (n - 1) + 2 ^ (n - 1) * ((P / 2 ^ (n - 1)) mod 2))
    by (rewrite En; apply Z.rem_mul_r; lia).
  pose proof (Z.mod_pos_bound P (2 ^ (n - 1)) Hp1).
  pose proof (Zmod_odd (P / 2 ^ (n - 1))) as Ho1.
  pose proof (Zmod_odd (P / 2 ^ n)) as Ho2.
  rewrite Em, Ho1, Ho2, En.
  destruct (Z.odd (P / 2 ^ (n - 1))), (Z.eqb_spec (P mod 2 ^ (n - 1)) 0);
    destruct (Z.odd (P / (2 ^ (n - 1) * 2))); cbn [andb orb negb]; lia.
Qed.

Ltac bool_cases :=
  repeat match goal with
  | |- context [Z.ltb ?a ?b] => destruct (Z.ltb_spec a b)
  | |- context [Z.leb ?a ?b] => destruct (Z.leb_spec a b)
  | |- context [Z.eqb ?a ?b] => destruct (Z.eqb_spec a b)
  end; cbn [andb orb negb]; try reflexivity.

Lemma SFleb_mul100 x :
  valid_binary x = true ->
  SFleb (SF64mul x sf100) sf10 = SFleb x sf0_1 /\
  SFleb (SF64mul x sf100) sf30 = SFleb x sf0_3 /\
  SFleb (SF64mul x sf100) sf50 = SFleb x sf0_5.
Proof.
  intros Hv. destruct x as [s|s| |s m e].
  - destruct s; repeat split; reflexivity.
  - destruct s; repeat split; reflexivity.
  - repeat split; reflexivity.
  - cbn [valid_binary] in Hv.
    destruct (mul100_finite s m e Hv) as (z & e' & Heq & Hz & Hc).
    rewrite Heq. destruct s.
    + unfold sf10, sf30, sf50. rewrite !SFleb_fin_neg by assumption.
      repeat split; reflexivity.
    + unfold sf10, sf30, sf50, sf0_1, sf0_3, sf0_5.
      rewrite !SFleb_fin_pos, !SFleb_finite_pos by lia.
      apply bounded_cases in Hv as (He & Hm & _).
      pose proof (rne_cases (25 * Zpos m) 4 ltac:(lia) ltac:(lia)) as R4.
      pose proof (rne_cases (25 * Zpos m) 5 ltac:(lia) ltac:(lia)) as R5.
      change (2 ^ 4) with 16 in *. change (2 ^ 5) with 32 in *.
      change (2 ^ 52) with 4503599627370496 in *.
      change (2 ^ 53) with 9007199254740992 in *.
      change (2 ^ 57) with 144115188075855872 in *.
      repeat split; bool_cases; exfalso; 
        Z.to_euclidean_division_equations; lia.
Qed.

End Round.

(** ** Facts on Python floats, from the specification of the primitives *)

Module Float64Facts.

#[local] Open Scope float_scope.

Import Binary64.

Lemma leb_trans (a b c : float) :
  (a <=? b) = true -> (b <=? c) = true -> (a <=? c) = true.
Proof. rewrite !leb_spec. apply SF.SFleb_trans. Qed.

Lemma ltb_leb (a b : float) : (a <? b) = true -> (a <=? b) = true.
Proof. rewrite ltb_spec, leb_spec. apply SF.SFltb_leb. Qed.

Lemma ltb_antisym (a b : float) : (a <? b) = true -> (b <=? a) = false.
Proof. rewrite ltb_spec, leb_spec. apply SF.SFltb_antisym. Qed.

Lemma comparable_not_nan (x : float) : comparable x -> Prim2SF x <> S754_nan.
Proof. unfold comparable. rewrite leb_spec. intros H. apply (SF.SFleb_not_nan _ _ H). Qed.

Lemma leb_comparable (a b : float) : (a <=? b) = true -> comparable a /\ comparable b.
Proof.
  unfold comparable. rewrite !leb_spec. intros H.
  destruct (SF.SFleb_not_nan _ _ H). split; apply SF.SFleb_refl; assumption.
Qed.

Lemma ltb_comparable (a b : float) : (a <? b) = true -> comparable a /\ comparable b.
Proof. intros H. apply leb_comparable, ltb_leb, H. Qed.

Lemma leb_total (a b : float) :
  comparable a -> comparable b -> (a <? b) = false -> (b <=? a) = true.
Proof.
  intros Ha Hb. rewrite ltb_spec, leb_spec.
  apply SF.SFleb_total; apply comparable_not_nan; assumption.
Qed.

(** A share inside the interval of the data model is a number. *)
Lemma unit_share_comparable (x : float) : unit_share x -> comparable x.
Proof. intros [H _]. apply (leb_comparable _ _ H). Qed.

Lemma Prim2SF_100 : Prim2SF 100 = Binary64.sf100.
Proof. vm_compute. reflexivity. Qed.

(** Multiplying by 100 and comparing with 10, 30 and 50 decides the same as
    comparing with 0.1, 0.3 and 0.5: the rounding of the product never
    crosses one of the three thresholds. *)
Lemma leb_mul100 (h : float) :
  (h * 100 <=? 10) = (h <=? 0.1) /\
  (h * 100 <=? 30) = (h <=? 0.3) /\
  (h * 100 <=? 50) = (h <=? 0.5).
Proof.
  rewrite !leb_spec, mul_spec, Prim2SF_100.
  exact (Round.SFleb_mul100 (Prim2SF h) (Prim2SF_valid h)).
Qed.

End Float64Facts.

(** ** Facts on [Decimal] *)

Module DecimalFacts.

Lemma ndigits_fuel_spec (fuel : nat) (c : N) :
  (0 < c)%N -> (c < 2 ^ N.of_nat fuel)%N ->
  let d := decimal.ndigits_fuel fuel c in
  (10 ^ (d - 1) <= c < 10 ^ d)%N /\ (1 <= d)%N.
Proof.
  revert c. induction fuel as [|fuel IH]; intros c Hpos Hlt.
  - change (2 ^ N.of_nat 0)%N with 1%N in Hlt. lia.
  - cbn [decimal.ndigits_fuel]. destruct (N.ltb_spec c 10) as [Hc|Hc].
    + cbn zeta. change (10 ^ (1 - 1))%N with 1%N. change (10 ^ 1)%N with 10%N. lia.
    + assert (Hq : (0 < c / 10)%N) by (apply N.div_str_pos; lia).
      assert (Hq2 : (c / 10 < 2 ^ N.of_nat fuel)%N).
      { apply N.Div0.div_lt_upper_bound.
        rewrite Nat2N.inj_succ, N.pow_succ_r' in Hlt.
        assert (0 < 2 ^ N.of_nat fuel)%N by (apply N.neq_0_lt_0, N.pow_nonzero; lia).
        lia. }
      specialize (IH (c / 10)%N Hq Hq2). cbn zeta in IH |- *.
      set (d := decimal.ndigits_fuel fuel (c / 10)) in *.
      destruct IH as [[Hlo Hhi] Hd].
      replace (1 + d - 1)%N with (N.succ (d - 1)) by lia.
      replace (1 + d)%N with (N.succ d) by lia.
      rewrite !N.pow_succ_r'.
      pose proof (N.div_mod c 10 ltac:(lia)).
      pose proof (N.mod_lt c 10 ltac:(lia)).
      clearbody d.
      generalize dependent (c / 10)%N. generalize dependent (c mod 10)%N.
      intros; lia.
Qed.

Lemma ndigits_spec (c : N) :
  (0 < c)%N ->
  (10 ^ (decimal.ndigits c - 1) <= c < 10 ^ decimal.ndigits c)%N /\ (1 <= decimal.ndigits c)%N.
Proof.
  intros Hc. unfold decimal.ndigits. apply ndigits_fuel_spec; [assumption|].
  rewrite N2Nat.id. apply N.size_gt.
Qed.

Lemma ndigits_zero : decimal.ndigits 0 = 1%N.
Proof. reflexivity. Qed.

Lemma pow10_pos (n : Z) : 0 <= n -> 0 < 10 ^ n.
Proof. intros. apply Z.pow_pos_nonneg; lia. Qed.

Lemma scaled_shift (a : Decimal) (m E : Z) :
  E <= m -> m <= decimal.dec_exp a ->
  decimal.scaled a E = decimal.scaled a m * 10 ^ (m - E).
Proof.
  intros H1 H2. unfold decimal.scaled.
  replace (decimal.dec_exp a - E) with ((decimal.dec_exp a - m) + (m - E)) by lia.
  rewrite Z.pow_add_r by lia. destruct (decimal.dec_sign a); lia.
Qed.

(** The comparison may be made at any exponent below both. *)
Lemma compare_at (a b : Decimal) (E : Z) :
  E <= decimal.dec_exp a -> E <= decimal.dec_exp b ->
  decimal.compare a b = (decimal.scaled a E ?= decimal.scaled b E).
Proof.
  intros Ha Hb. unfold decimal.compare.
  set (m := Z.min (decimal.dec_exp a) (decimal.dec_exp b)).
  rewrite (scaled_shift a m E), (scaled_shift b m E) by lia.
  apply Zmult_compare_compat_r, Z.lt_gt, pow10_pos. lia.
Qed.

Lemma compare_refl (a : Decimal) : decimal.compare a a = Eq.
Proof. unfold decimal.compare. apply Z.compare_refl. Qed.



Lemma round_half_even_bounds (c k : N) :
  (c / 10 ^ k <= decimal.round_half_even c k <= c / 10 ^ k + 1)%N.
Proof. unfold decimal.round_half_even. cbn zeta. destruct (_ || _); lia. Qed.


End DecimalFacts.

(** ** Dates *)

Lemma bind_Ok {A B : Type} (a : A) (k : A -> result B) : (Ok a ≫= k) = k a.
Proof. reflexivity. Qed.

Lemma timedelta_Ok (n : Z) :
  -999999999 <= n <= 999999999 -> datetime.timedelta n = Ok n.
Proof.
  intros H. unfold datetime.timedelta.
  destruct (Z.leb_spec (-999999999) n), (Z.leb_spec n 999999999); try lia. reflexivity.
Qed.

Lemma date_sub_Ok (d delta : Z) :
  0 < d - delta <= datetime.MAXORDINAL -> datetime.date_sub d delta = Ok (d - delta).
Proof.
  intros H. unfold datetime.date_sub. cbn zeta.
  destruct (Z.ltb_spec 0 (d - delta)), (Z.leb_spec (d - delta) datetime.MAXORDINAL);
    try lia. reflexivity.
Qed.

(** ** Rows of the report *)

Lemma int_or_default (x : option Z) : int_or x 0 = default 0 x.
Proof. destruct x as [n|]; [|reflexivity]. cbn. destruct (Z.eqb_spec n 0); congruence. Qed.

Lemma str_or_default (x : option string) : str_or x "" = default ""%string x.
Proof.
  destruct x as [s|]; [|reflexivity]. cbn. destruct (String.eqb_spec s ""); congruence.
Qed.

Lemma row_output_dropped (keywords_by_id : gmap Z KeywordInfo) (row : Report.Row) :
  kept_row row = false -> row_output keywords_by_id row = [].
Proof.
  unfold kept_row, row_output, parse_row. cbn zeta. intros H.
  rewrite <- negb_andb, H. reflexivity.
Qed.

Lemma row_output_kept (keywords_by_id : gmap Z KeywordInfo) (row : Report.Row) :
  kept_row row = true ->
  exists d, row_output keywords_by_id row = [d] /\ parsed_from keywords_by_id row d.
Proof.
  unfold kept_row, row_output, parse_row. cbn zeta. intros H.
  rewrite <- negb_andb, H. cbn [negb].
  destruct (Report.keyword_id (Report.metadata row)) as [kid|] eqn:Hkid; [|discriminate].
  destruct (Report.keyword (Report.metadata row)) as [kw|] eqn:Hkw;
    [|rewrite andb_false_r in H; discriminate].
  eexists. split; [reflexivity|].
  unfold parsed_from. cbn zeta.
  cbn [keyword_id keyword campaign_id campaign_name ad_group_id ad_group_name country
       current_bid currency low_share high_share rank search_popularity].
  rewrite Hkid, Hkw, !int_or_default, !str_or_default.
  repeat split;
    match goal with E : keywords_by_id !! kid = _ |- _ => rewrite E end; reflexivity.
Qed.

(** ** The loops over lists *)

Lemma parse_row_app (keywords_by_id : gmap Z KeywordInfo)
    (results : list KeywordShareData) (row : Report.Row) :
  parse_row keywords_by_id results row = results ++ row_output keywords_by_id row.
Proof.
  unfold row_output, parse_row.
  cbn zeta. destruct (negb _ || negb _); [now rewrite app_nil_r|].
  destruct (Report.keyword_id (Report.metadata row)), (Report.keyword (Report.metadata row));
    now rewrite ?app_nil_r.
Qed.

Lemma parse_fold (keywords_by_id : gmap Z KeywordInfo) (report : list Report.Row)
    (results : list KeywordShareData) :
  fold_left (parse_row keywords_by_id) report results
  = results ++ flat_map (row_output keywords_by_id) report.
Proof.
  revert results. induction report as [|row report IH]; intros results; cbn [fold_left flat_map].
  - now rewrite app_nil_r.
  - rewrite IH, parse_row_app, <- app_assoc. reflexivity.
Qed.


(** ** Sorting by share *)

Lemma share_key_comparable (d : KeywordShareData) :
  share_comparable d -> Binary64.comparable (share_key d).
Proof.
  unfold share_comparable, share_key. destruct (high_share d) as [h|].
  - intros Hh. destruct (Float64.truthy h); [assumption|reflexivity].
  - reflexivity.
Qed.

Lemma insert_by_share_perm (x : KeywordShareData) (l : list KeywordShareData) :
  Permutation (insert_by_share x l) (x :: l).
Proof.
  induction l as [|y l IH]; cbn [insert_by_share]; [reflexivity|].
  destruct (share_key x <? share_key y)%float; [reflexivity|].
  rewrite IH. apply perm_swap.
Qed.

Lemma sort_fold_perm (l acc : list KeywordShareData) :
  Permutation (fold_left (fun sorted x => insert_by_share x sorted) l acc) (acc ++ l).
Proof.
  revert acc. induction l as [|x l IH]; intros acc; cbn [fold_left].
  - now rewrite app_nil_r.
  - rewrite IH, insert_by_share_perm. apply Permutation_middle.
Qed.

Lemma sort_by_share_perm (l : list KeywordShareData) :
  Permutation (sort_by_share l) l.
Proof. apply (sort_fold_perm l []). Qed.

Lemma insert_by_share_hd (x y : KeywordShareData) (l : list KeywordShareData) :
  share_le y x -> HdRel share_le y l -> HdRel share_le y (insert_by_share x l).
Proof.
  intros Hyx Hhd. destruct l as [|z l]; cbn [insert_by_share].
  - constructor. assumption.
  - destruct (share_key x <? share_key z)%float; constructor; [assumption|].
    inversion Hhd; assumption.
Qed.

Lemma insert_by_share_sorted (x : KeywordShareData) (l : list KeywordShareData) :
  share_comparable x -> Forall share_comparable l ->
  Sorted share_le l -> Sorted share_le (insert_by_share x l).
Proof.
  intros Hx Hl Hs. induction l as [|y l IH]; cbn [insert_by_share].
  - repeat constructor.
  - inversion Hl as [|? ? Hy Hl']; subst. inversion Hs as [|? ? Hs' Hhd]; subst.
    destruct (share_key x <? share_key y)%float eqn:Hlt.
    + constructor; [assumption|]. constructor. apply Float64Facts.ltb_leb, Hlt.
    + constructor; [apply IH; assumption|].
      apply insert_by_share_hd; [|assumption].
      apply Float64Facts.leb_total; [apply share_key_comparable..|]; assumption.
Qed.

Lemma insert_by_share_comparable (x : KeywordShareData) (l : list KeywordShareData) :
  share_comparable x -> Forall share_comparable l ->
  Forall share_comparable (insert_by_share x l).
Proof.
  intros Hx Hl.
  apply (Permutation_Forall (Permutation_sym (insert_by_share_perm x l))).
  constructor; assumption.
Qed.

Lemma sort_fold_sorted (l acc : list KeywordShareData) :
  Forall share_comparable l -> Forall share_comparable acc -> Sorted share_le acc ->
  Sorted share_le (fold_left (fun sorted x => insert_by_share x sorted) l acc).
Proof.
  revert acc. induction l as [|x l IH]; intros acc Hl Hacc Hs; cbn [fold_left].
  - assumption.
  - inversion Hl; subst. apply IH; [assumption| |].
    + apply insert_by_share_comparable; assumption.
    + apply insert_by_share_sorted; assumption.
Qed.

Lemma share_le_trans : Relations_1.Transitive share_le.
Proof. intros a b c. unfold share_le. apply Float64Facts.leb_trans. Qed.

Lemma sort_by_share_sorted (l : list KeywordShareData) :
  Forall share_comparable l -> StronglySorted share_le (sort_by_share l).
Proof.
  intros Hl. apply Sorted_StronglySorted; [exact share_le_trans|].
  apply sort_fold_sorted; [assumption|constructor|constructor].
Qed.

Lemma below_threshold_comparable (t : float) (d : KeywordShareData) :
  below_threshold t d = true -> share_comparable d.
Proof.
  unfold below_threshold, share_comparable. destruct (high_share d) as [h|]; [|discriminate].
  intros H. apply (Float64Facts.ltb_comparable _ _ H).
Qed.

(* ===================================================================== *)
(** * Part IV: the properties of the specification                        *)
(* ===================================================================== *)

(** ** The suggested bid *)

(** The tiers of [suggested_bid], which the code takes on [high_share * 100],
    are tiers on [high_share] itself. *)
Lemma suggested_bid_thresholds (d : KeywordShareData) :
  suggested_bid d =
  match high_share d with
  | None => current_bid d
  | Some h =>
      if (0.5 <=? h)%float then current_bid d
      else if (h <=? 0.1)%float then decimal.mul (current_bid d) Decimal_1_50
      else if (h <=? 0.3)%float then decimal.mul (current_bid d) Decimal_1_25
      else if (h <=? 0.5)%float then decimal.mul (current_bid d) Decimal_1_10
      else current_bid d
  end.
Proof.
  unfold suggested_bid, Float64.geb. destruct (high_share d) as [h|]; [|reflexivity].
  destruct (Float64Facts.leb_mul100 h) as (-> & -> & ->). reflexivity.
Qed.

(** C1. For every record, [suggested_bid] is the function of [current_bid]
    and [high_share] of the specification: an unknown share or a share of
    0.50 or more leaves the bid as it is; a share of at most 0.10 gives
    [current_bid * 1.50]; a share above 0.10 and at most 0.30 gives
    [current_bid * 1.25]. The boundaries are as stated: 0.10 itself gives
    [* 1.50] and 0.30 itself gives [* 1.25]. *)
Theorem suggested_bid_tiers (d : KeywordShareData) :
  (high_share d = None -> suggested_bid d = current_bid d) /\
  (forall h, high_share d = Some h -> Float64.geb h 0.5 = true ->
     suggested_bid d = current_bid d) /\
  (forall h, high_share d = Some h -> (h <=? 0.1)%float = true ->
     suggested_bid d = decimal.mul (current_bid d) Decimal_1_50) /\
  (forall h, high_share d = Some h ->
     (0.1 <? h)%float = true -> (h <=? 0.3)%float = true ->
     suggested_bid d = decimal.mul (current_bid d) Decimal_1_25) /\
  (high_share d = Some 0.1%float ->
     suggested_bid d = decimal.mul (current_bid d) Decimal_1_50) /\
  (high_share d = Some 0.3%float ->
     suggested_bid d = decimal.mul (current_bid d) Decimal_1_25).
Proof.
  rewrite suggested_bid_thresholds. unfold Float64.geb.
  repeat split.
  - intros ->. reflexivity.
  - intros h -> ->. reflexivity.
  - intros h -> H01.
    destruct (0.5 <=? h)%float eqn:H05.
    + pose proof (Float64Facts.leb_trans _ _ _ H05 H01) as H. vm_compute in H. discriminate.
    + rewrite H01. reflexivity.
  - intros h -> H01 H03.
    destruct (0.5 <=? h)%float eqn:H05.
    + pose proof (Float64Facts.leb_trans _ _ _ H05 H03) as H. vm_compute in H. discriminate.
    + rewrite (Float64Facts.ltb_antisym _ _ H01), H03. reflexivity.
  - intros ->. reflexivity.
  - intros ->. reflexivity.
Qed.

Lemma suggested_bid_tiers_witness :
  suggested_bid (sample_row one_dollar None None) = one_dollar /\
  suggested_bid (sample_row one_dollar None (Some 0.75%float)) = one_dollar /\
  suggested_bid (sample_row one_dollar None (Some 0.05%float)) = mkDecimal false 15000 (-4) /\
  suggested_bid (sample_row one_dollar None (Some 0.2%float)) = mkDecimal false 12500 (-4) /\
  suggested_bid (sample_row one_dollar None (Some 0.1%float)) = mkDecimal false 15000 (-4) /\
  suggested_bid (sample_row one_dollar None (Some 0.3%float)) = mkDecimal false 12500 (-4).
Proof.
  refine (conj _ (conj _ (conj _ (conj _ (conj _ _))))).
  - apply (proj1 (suggested_bid_tiers (sample_row one_dollar None None))). reflexivity.
  - apply (proj1 (proj2 (suggested_bid_tiers (sample_row one_dollar None (Some 0.75%float))))
             0.75%float); reflexivity.
  - apply (proj1 (proj2 (proj2 (suggested_bid_tiers (sample_row one_dollar None (Some 0.05%float)))))
             0.05%float); reflexivity.
  - apply (proj1 (proj2 (proj2 (proj2
             (suggested_bid_tiers (sample_row one_dollar None (Some 0.2%float))))))
             0.2%float); reflexivity.
  - apply (proj1 (proj2 (proj2 (proj2 (proj2
             (suggested_bid_tiers (sample_row one_dollar None (Some 0.1%float)))))))).
    reflexivity.
  - apply (proj2 (proj2 (proj2 (proj2 (proj2
             (suggested_bid_tiers (sample_row one_dollar None (Some 0.3%float)))))))).
    reflexivity.
Defined.

(** C2, as stated, fails at a share of exactly 0.50: the bid is positive and
    the share lies in (0.30, 0.50], yet the suggestion is the current bid
    1.00; it is not the Decimal [1.00 * 1.10] and not equal to it as a
    number either. *)
Lemma half_share_keeps_bid :
  decimal.gtb (current_bid half_share_row) Decimal_0 = true /\
  high_share half_share_row = Some 0.5%float /\
  (0.3 <? 0.5)%float = true /\ (0.5 <=? 0.5)%float = true /\
  suggested_bid half_share_row = one_dollar /\
  suggested_bid half_share_row <> decimal.mul (current_bid half_share_row) Decimal_1_10 /\
  decimal.eqb (suggested_bid half_share_row)
              (decimal.mul (current_bid half_share_row) Decimal_1_10) = false.
Proof. repeat split. vm_compute. discriminate. Qed.

(** C2, amended. For every record with [current_bid > 0] and [high_share]
    in the open interval (0.30, 0.50), [suggested_bid] is
    [current_bid * 1.10]; at a share of exactly 0.50 it is [current_bid]. *)
Theorem suggested_bid_upper_tier (d : KeywordShareData) (h : float) :
  decimal.gtb (current_bid d) Decimal_0 = true ->
  high_share d = Some h ->
  ((0.3 <? h)%float = true -> (h <? 0.5)%float = true ->
     suggested_bid d = decimal.mul (current_bid d) Decimal_1_10) /\
  (h = 0.5%float -> suggested_bid d = current_bid d).
Proof.
  intros _ Hh. rewrite suggested_bid_thresholds, Hh. split.
  - intros H03 H05.
    rewrite (Float64Facts.ltb_antisym _ _ H05), (Float64Facts.ltb_antisym _ _ H03),
      (Float64Facts.ltb_leb _ _ H05).
    destruct (h <=? 0.1)%float eqn:H01; [|reflexivity].
    assert (H : (0.1 <=? 0.3)%float = true) by reflexivity.
    pose proof (Float64Facts.leb_trans h 0.1%float 0.3%float H01 H) as H'.
    rewrite (Float64Facts.ltb_antisym _ _ H03) in H'. discriminate.
  - intros ->. reflexivity.
Qed.

Lemma suggested_bid_upper_tier_witness :
  suggested_bid (sample_row one_dollar None (Some 0.4%float)) = mkDecimal false 11000 (-4) /\
  suggested_bid half_share_row = one_dollar.
Proof.
  split.
  - apply (proj1 (suggested_bid_upper_tier
                    (sample_row one_dollar None (Some 0.4%float)) 0.4%float
                    eq_refl eq_refl)); reflexivity.
  - apply (proj2 (suggested_bid_upper_tier half_share_row 0.5%float eq_refl eq_refl)).
    reflexivity.
Defined.





(** ** The share range *)

(** C7. [share_range] maps low 0.05 and high 0.12 to "5-12%", and the case
    where both shares are [None] to "N/A". *)
Theorem share_range_format (d : KeywordShareData) :
  (low_share d = Some 0.05%float -> high_share d = Some 0.12%float ->
     share_range d = Ok "5-12%"%string) /\
  (low_share d = None -> high_share d = None -> share_range d = Ok "N/A"%string).
Proof.
  unfold share_range. split; intros -> ->; reflexivity.
Qed.

Lemma share_range_format_witness :
  share_range (sample_row one_dollar (Some 0.05%float) (Some 0.12%float)) = Ok "5-12%"%string /\
  share_range (sample_row one_dollar None None) = Ok "N/A"%string.
Proof.
  split.
  - apply (proj1 (share_range_format
                    (sample_row one_dollar (Some 0.05%float) (Some 0.12%float))));
      reflexivity.
  - apply (proj2 (share_range_format (sample_row one_dollar None None))); reflexivity.
Defined.

(** ** The period of the report *)

(** C3. In each of the three commands, a [days] argument above 30 is
    clamped to 30 and the warning is printed; [end_date] is yesterday and
    [start_date] is [end_date] minus [days - 1] days. The dates are
    computed whenever yesterday and the start date are dates of the
    calendar. *)
Theorem lookback_window_clamped (c : command) (today days : Z) :
  fst (command_window c today days)
    = (if 30 <? days then [lookback_warning] else []) /\
  (1 < today <= datetime.MAXORDINAL ->
   -999999998 <= clamped days ->
   0 < today - 1 - (clamped days - 1) <= datetime.MAXORDINAL ->
   snd (command_window c today days)
     = Ok (mkLookback (clamped days) (today - 1 - (clamped days - 1)) (today - 1))).
Proof.
  assert (E : command_window c today days = lookback_window today days)
    by (destruct c; reflexivity).
  rewrite E. unfold lookback_window, clamped.
  destruct (Z.ltb_spec 30 days); cbn [fst snd]; (split; [reflexivity|]);
    intros Htoday Hlo Hstart;
    rewrite (timedelta_Ok 1), ?(timedelta_Ok (30 - 1)), ?(timedelta_Ok (days - 1)) by lia;
    rewrite bind_Ok, (date_sub_Ok today 1), !bind_Ok by lia;
    rewrite date_sub_Ok, bind_Ok by lia; reflexivity.
Qed.

Lemma lookback_window_clamped_witness :
  snd (command_window cmd_analyze 739000 45) = Ok (mkLookback 30 738970 738999) /\
  snd (command_window cmd_optimize 739000 7) = Ok (mkLookback 7 738993 738999) /\
  snd (command_window cmd_report 739000 31) = Ok (mkLookback 30 738970 738999).
Proof.
  refine (conj _ (conj _ _)).
  - apply (proj2 (lookback_window_clamped cmd_analyze 739000 45));
      unfold datetime.MAXORDINAL; cbn; lia.
  - apply (proj2 (lookback_window_clamped cmd_optimize 739000 7));
      unfold datetime.MAXORDINAL; cbn; lia.
  - apply (proj2 (lookback_window_clamped cmd_report 739000 31));
      unfold datetime.MAXORDINAL; cbn; lia.
Defined.

(** ** Filtering *)

(** C4. With [min_share = 30] the filter of [analyze] keeps exactly the
    rows whose [high_share] is present and strictly below 0.30, in their
    order; a row at exactly 0.30 and a row without a share are dropped. *)
Theorem min_share_30_filter (data : list KeywordShareData) :
  min_share_filter (Some 30%float) data
    = List.filter (fun d => match high_share d with
                            | Some h => (h <? 0.3)%float
                            | None => false
                            end) data /\
  (forall d, In d (min_share_filter (Some 30%float) data) <->
             In d data /\ exists h, high_share d = Some h /\ (h <? 0.3)%float = true) /\
  (forall d, high_share d = Some 0.3%float ->
             ~ In d (min_share_filter (Some 30%float) data)) /\
  (forall d, high_share d = None ->
             ~ In d (min_share_filter (Some 30%float) data)).
Proof.
  assert (E : forall d, In d (min_share_filter (Some 30%float) data) <->
              In d data /\ exists h, high_share d = Some h /\ (h <? 0.3)%float = true).
  { intros d. unfold min_share_filter. cbn zeta. rewrite filter_In.
    unfold below_threshold. change (30 / 100)%float with 0.3%float.
    split; intros [Hin H]; (split; [assumption|]).
    - destruct (high_share d) as [h|]; [eauto|discriminate].
    - destruct H as (h & -> & H). assumption. }
  split; [reflexivity|]. split; [exact E|]. split.
  - intros d Hd Hin. apply E in Hin as (_ & h & Hh & Hlt).
    rewrite Hd in Hh. injection Hh as <-. vm_compute in Hlt. discriminate.
  - intros d Hd Hin. apply E in Hin as (_ & h & Hh & _). congruence.
Qed.

Lemma min_share_30_filter_witness :
  ~ In (sample_row one_dollar None (Some 0.3%float))
       (min_share_filter (Some 30%float)
          [sample_row one_dollar None (Some 0.2%float);
           sample_row one_dollar None (Some 0.3%float);
           sample_row one_dollar None None]) /\
  ~ In (sample_row one_dollar None None)
       (min_share_filter (Some 30%float)
          [sample_row one_dollar None (Some 0.2%float);
           sample_row one_dollar None (Some 0.3%float);
           sample_row one_dollar None None]).
Proof.
  split.
  - apply (proj1 (proj2 (proj2 (min_share_30_filter _)))). reflexivity.
  - apply (proj2 (proj2 (proj2 (min_share_30_filter _)))). reflexivity.
Defined.

(** ** Sorting *)

(** C6. In [analyze] and in [optimize] the filtered rows are sorted in
    ascending order of [high_share], a missing share counting as 0: every
    row comes before the rows of greater or equal share, and the sorted
    list is a permutation of the filtered list. The filters of [optimize]
    and the min-share filter of [analyze] keep only rows whose share is a
    number; when [analyze] has no min-share filter, the shares that are
    present are taken to be numbers, as the data model has them (shares lie
    in [0, 1]). *)
Theorem rows_sorted_by_share (data : list KeywordShareData) :
  (forall d, high_share d = None -> share_key d = 0%float) /\
  (forall max_share,
     let rows := max_share_filter max_share data in
     optimize_rows max_share data
       = match rows with [] => None | _ => Some (sort_by_share rows) end /\
     StronglySorted share_le (sort_by_share rows) /\
     Permutation (sort_by_share rows) rows) /\
  (forall min_share,
     (min_share = None -> Forall share_comparable data) ->
     let rows := min_share_filter min_share data in
     analyze_rows min_share data
       = match rows with [] => None | _ => Some (sort_by_share rows) end /\
     StronglySorted share_le (sort_by_share rows) /\
     Permutation (sort_by_share rows) rows).
Proof.
  split; [|split].
  - intros d Hd. unfold share_key. rewrite Hd. reflexivity.
  - intros max_share rows. split; [|split].
    + unfold optimize_rows. fold rows. destruct rows; reflexivity.
    + apply sort_by_share_sorted. unfold rows, max_share_filter. cbn zeta.
      rewrite List.Forall_forall. intros d Hd.
      apply filter_In in Hd as [Hd _]. apply filter_In in Hd as [_ Hd].
      apply (below_threshold_comparable _ _ Hd).
    + apply sort_by_share_perm.
  - intros min_share Hdata rows. split; [|split].
    + unfold analyze_rows. fold rows. destruct rows; reflexivity.
    + apply sort_by_share_sorted. unfold rows, min_share_filter.
      destruct min_share as [ms|]; [|apply Hdata; reflexivity].
      rewrite List.Forall_forall. intros d Hd.
      apply filter_In in Hd as [_ Hd].
      apply (below_threshold_comparable _ _ Hd).
    + apply sort_by_share_perm.
Qed.

Lemma rows_sorted_by_share_witness :
  analyze_rows None unsorted_rows
    = Some [ sample_row one_dollar None None;
             sample_row one_dollar None (Some 0.05%float);
             sample_row one_dollar None (Some 0.2%float);
             sample_row one_dollar None (Some 0.4%float) ] /\
  StronglySorted share_le (sort_by_share (min_share_filter None unsorted_rows)).
Proof.
  assert (H : @None float = None -> Forall share_comparable unsorted_rows)
    by (intros _; unfold unsorted_rows; repeat (constructor; [reflexivity|]); constructor).
  split.
  - exact (proj1 (proj2 (proj2 (rows_sorted_by_share unsorted_rows)) None H)).
  - exact (proj1 (proj2 (proj2 (proj2 (rows_sorted_by_share unsorted_rows)) None H))).
Defined.

(** ** CSV export *)



(** ** Parsing the report *)

(** C10. [_parse_report_data] drops exactly the rows whose metadata has a
    missing or falsy [keyword_id] or [keyword], and returns one record per
    kept row, in the order of the report. A record whose keyword id is not
    in the bid lookup has the bid 0 and the currency "USD"; missing
    campaign and ad-group ids are 0, missing names and a missing country
    the empty string. *)
Theorem parse_report_data_kept_rows
    (report : Report.ImpressionShareReport) (keywords_by_id : gmap Z KeywordInfo) :
  Forall2 (parsed_from keywords_by_id)
          (List.filter kept_row (Report.row report))
          (_parse_report_data report keywords_by_id) /\
  length (_parse_report_data report keywords_by_id)
    = length (List.filter kept_row (Report.row report)) /\
  (forall row, kept_row row = true <->
     exists kid kw,
       Report.keyword_id (Report.metadata row) = Some kid /\ kid <> 0 /\
       Report.keyword (Report.metadata row) = Some kw /\ kw <> ""%string).
Proof.
  assert (F : Forall2 (parsed_from keywords_by_id)
                (List.filter kept_row (Report.row report))
                (_parse_report_data report keywords_by_id)).
  { unfold _parse_report_data. rewrite parse_fold. cbn [app].
    induction (Report.row report) as [|row rows IH];
      cbn [List.filter flat_map]; [constructor|].
    destruct (kept_row row) eqn:Hk.
    - destruct (row_output_kept keywords_by_id row Hk) as (d & -> & Hd).
      cbn [app]. constructor; assumption.
    - rewrite (row_output_dropped keywords_by_id row Hk). exact IH. }
  split; [exact F|]. split.
  - symmetry. exact (Forall2_length _ _ _ F).
  - intros row. unfold kept_row, int_truthy, str_truthy.
    destruct (Report.keyword_id (Report.metadata row)) as [kid|],
             (Report.keyword (Report.metadata row)) as [kw|]; cbn [andb].
    + destruct (Z.eqb_spec kid 0), (String.eqb_spec kw ""); cbn [negb andb]; split;
        try discriminate;
        try (intros (k & w & Ek & Hk & Ew & Hw);
             injection Ek as <-; injection Ew as <-; congruence).
      intros _. exists kid, kw. auto.
    + split; [rewrite andb_false_r; discriminate|]. intros (? & ? & _ & _ & [=] & _).
    + split; [discriminate|]. intros (? & ? & [=] & _).
    + split; [discriminate|]. intros (? & ? & [=] & _).
Qed.

(* ===================================================================== *)
(** * Part V: further properties of the module                            *)
(* ===================================================================== *)

(** ** Lemmas *)

Module RoundMore.

Import Binary64.

Lemma shiftl_neg_le (z k K : Z) :
  0 <= z -> 0 <= K <= k -> 0 <= Z.shiftl z (- k) <= z / 2 ^ K.
Proof.
  intros Hz HK. rewrite <- Z.shiftr_opp_r, Z.opp_involutive, Z.shiftr_div_pow2 by lia.
  assert (0 < 2 ^ K) by (apply Z.pow_pos_nonneg; lia).
  assert (2 ^ K <= 2 ^ k) by (apply Z.pow_le_mono_r; lia).
  split.
  - apply Z.div_pos; lia.
  - apply Z.div_le_compat_l; lia.
Qed.

(** The product of a subnormal with 100 is far below one. *)
Lemma mul100_subnormal s m e :
  bounded prec emax m e = true -> Zpos m < 2 ^ 52 ->
  exists z e',
    SF64mul (S754_finite s m e) sf100 = fin s z e' /\ 0 <= z <= 2 ^ 53 /\ e' <= -1067.
Proof.
  intros Hb Hsub. apply Round.bounded_cases in Hb as (He & Hm & Hc).
  assert (e = -1074) by lia. subst e.
  unfold SF64mul, SFmul, sf100. rewrite xorb_false_r, Round.binary_round_aux_exact.
  set (M := (m * 7036874417766400)%positive).
  assert (EM : Zpos M = 2 ^ 48 * (25 * Zpos m)) by (unfold M; rewrite Pos2Z.inj_mul; lia).
  pose proof (Round.digits2_bounds M) as [Dlo Dhi].
  set (d := Zpos (digits2_pos M)) in *.
  rewrite Round.fexp_eq.
  assert (d <= 105).
  { destruct (Z.leb_spec d 105); [assumption|].
    assert (2 ^ 105 <= 2 ^ (d - 1)) by (apply Z.pow_le_mono_r; lia). lia. }
  assert (0 < d) by (unfold d; lia).
  set (n := Z.max (d + (-1074 + -46) - 53) (-1074) - (-1074 + -46)).
  assert (Hn : 46 <= n <= 52) by lia.
  destruct (Z.leb_spec n 0); [lia|]. cbn zeta.
  pose proof (Round.rne_nonneg (Zpos M) n ltac:(lia) ltac:(lia)).
  pose proof (Round.rne_bounds (Zpos M) n ltac:(lia) ltac:(lia)).
  assert (Hq : Zpos M / 2 ^ n < 2 ^ 53).
  { apply Z.div_lt_upper_bound; [apply Z.pow_pos_nonneg; lia|].
    rewrite <- Z.pow_add_r by lia.
    assert (2 ^ d <= 2 ^ (n + 53)) by (apply Z.pow_le_mono_r; lia). lia. }
  destruct (Z.eqb_spec (rne (Zpos M) n) (2 ^ 53)).
  - exists (2 ^ 52), (-1074 + -46 + n + 1). split; [reflexivity|]. lia.
  - exists (rne (Zpos M) n), (-1074 + -46 + n). split; [reflexivity|]. lia.
Qed.

Lemma sf_to_int_fin (z e' K : Z) :
  0 <= z -> e' <= - K -> 0 <= K ->
  exists n, sf_to_int (fin false z e') = Ok n /\ 0 <= n <= z / 2 ^ K.
Proof.
  intros Hz He HK. unfold fin.
  assert (0 <= z / 2 ^ K) by (apply Z.div_pos; [lia|apply Z.pow_pos_nonneg; lia]).
  destruct z as [|p|p]; try lia.
  - exists 0. split; [reflexivity|]. lia.
  - change (emax - prec) with 971.
    destruct (Z.leb_spec e' 971); [|lia].
    eexists. split; [reflexivity|]. cbn beta iota.
    replace e' with (- (- e')) by lia. apply shiftl_neg_le; lia.
Qed.

(** For a share [x] in [0, 1], [int(x * 100)] is an integer from 0 to 100. *)
Lemma unit_percent (x : spec_float) :
  valid_binary x = true ->
  SFleb (S754_zero false) x = true -> SFleb x sf1 = true ->
  exists n, sf_to_int (SF64mul x sf100) = Ok n /\ 0 <= n <= 100.
Proof.
  intros Hv H0 H1. destruct x as [s|s| |s m e].
  - exists 0. split; [reflexivity|lia].
  - destruct s; discriminate.
  - discriminate.
  - destruct s; [discriminate|]. cbn [valid_binary] in Hv.
    unfold sf1 in H1. rewrite Round.SFleb_finite_pos in H1.
    pose proof (Round.bounded_cases m e Hv) as (He & Hm & Hc).
    destruct (Z.ltb_spec (Zpos m) (2 ^ 52)) as [Hsub|Hnorm].
    + destruct (mul100_subnormal false m e Hv Hsub) as (z & e' & -> & Hz & He').
      destruct (sf_to_int_fin z e' 1067 ltac:(lia) ltac:(lia) ltac:(lia)) as (n & -> & Hn).
      exists n. split; [reflexivity|].
      assert (z / 2 ^ 1067 <= 0); [|lia].
      rewrite Z.div_small; [lia|]. split; [lia|].
      assert (2 ^ 53 < 2 ^ 1067) by (apply Z.pow_lt_mono_r; lia). lia.
    + destruct (Round.mul100_finite false m e Hv) as (z & e' & -> & Hz & Hcases).
      pose proof (Round.rne_cases (25 * Zpos m) 4 ltac:(lia) ltac:(lia)) as R4.
      pose proof (Round.rne_cases (25 * Zpos m) 5 ltac:(lia) ltac:(lia)) as R5.
      change (2 ^ 4) with 16 in *. change (2 ^ 5) with 32 in *.
      change (2 ^ 52) with 4503599627370496 in *.
      change (2 ^ 53) with 9007199254740992 in *.
      change (2 ^ 57) with 144115188075855872 in *.
      assert (Hx : e < -52 \/ (e = -52 /\ Zpos m = 4503599627370496)).
      { destruct (Z.ltb_spec e (-52)); [lia|]. right.
        destruct (Z.eqb_spec e (-52)), (Z.leb_spec (Zpos m) 4503599627370496);
          cbn in H1; try discriminate; lia. }
      assert (Hk : (e' <= -47 /\ z <= 9007199254740992) \/
                   (e' <= -46 /\ z <= 7036874417766400)).
      { clear H1. Z.to_euclidean_division_equations. lia. }
      destruct Hk as [[He' Hz']|[He' Hz']].
      * destruct (sf_to_int_fin z e' 47 ltac:(lia) ltac:(lia) ltac:(lia)) as (n & -> & Hn).
        exists n. split; [reflexivity|].
        assert (z / 2 ^ 47 <= 64) by (apply Z.div_le_upper_bound; lia). lia.
      * destruct (sf_to_int_fin z e' 46 ltac:(lia) ltac:(lia) ltac:(lia)) as (n & -> & Hn).
        exists n. split; [reflexivity|].
        assert (z / 2 ^ 46 <= 100) by (apply Z.div_le_upper_bound; lia). lia.
Qed.

End RoundMore.

(** ** More on binary64 *)

Module Float64More.

Import Binary64.

#[local] Open Scope float_scope.

(** A NaN compares with nothing, and its product with 100 is a NaN. *)
Lemma nan_leb_l (h x : float) : (h <=? h) = false -> (h <=? x) = false.
Proof.
  intros Hn. destruct (h <=? x) eqn:E; [|reflexivity].
  destruct (Float64Facts.leb_comparable _ _ E) as [Hc _]. unfold comparable in Hc. congruence.
Qed.

Lemma nan_leb_r (h x : float) : (h <=? h) = false -> (x <=? h) = false.
Proof.
  intros Hn. destruct (x <=? h) eqn:E; [|reflexivity].
  destruct (Float64Facts.leb_comparable _ _ E) as [_ Hc]. unfold comparable in Hc. congruence.
Qed.

Lemma nan_spec (h : float) : (h <=? h) = false -> Prim2SF h = S754_nan.
Proof.
  rewrite FloatAxioms.leb_spec. intros Hn.
  destruct (Prim2SF h) as [s|s| |s m e] eqn:E; try reflexivity;
    match type of Hn with SFleb ?a ?a = false =>
      pose proof (SF.SFleb_refl a ltac:(discriminate)); congruence
    end.
Qed.

Lemma nan_truthy (h : float) : (h <=? h) = false -> Float64.truthy h = true.
Proof.
  intros Hn. unfold Float64.truthy. rewrite FloatAxioms.eqb_spec, (nan_spec h Hn). reflexivity.
Qed.

Lemma nan_to_int (h : float) :
  (h <=? h) = false -> Float64.to_int (h * 100) = Raise ValueError.
Proof.
  intros Hn. unfold Float64.to_int. rewrite FloatAxioms.mul_spec, (nan_spec h Hn). reflexivity.
Qed.

End Float64More.

Module DecimalMore.



Lemma gtb_zero (a : Decimal) :
  decimal.gtb a Decimal_0 = true <->
  decimal.dec_sign a = false /\ (0 < decimal.dec_int a)%N.
Proof.
  unfold decimal.gtb.
  rewrite (DecimalFacts.compare_at a Decimal_0 (Z.min (decimal.dec_exp a) 0)) by (cbn; lia).
  unfold decimal.scaled. cbn [decimal.dec_sign decimal.dec_int decimal.dec_exp Decimal_0].
  pose proof (DecimalFacts.pow10_pos (decimal.dec_exp a - Z.min (decimal.dec_exp a) 0) ltac:(lia)) as Hp.
  set (p := 10 ^ (decimal.dec_exp a - Z.min (decimal.dec_exp a) 0)) in *.
  change (Z.of_N 0 * _) with 0.
  destruct (decimal.dec_sign a), (Z.compare_spec (- (Z.of_N (decimal.dec_int a) * p)) 0),
    (Z.compare_spec (Z.of_N (decimal.dec_int a) * p) 0); split; intros;
    try discriminate; try reflexivity; try nia; try (split; [reflexivity|nia]);
    try (destruct H1; discriminate); try (destruct H1; nia).
Qed.

(** The product of zero with a factor is zero. *)
Lemma mul_zero (a : Decimal) (f : N) :
  decimal.dec_int a = 0%N ->
  decimal.eqb (decimal.mul a (mkDecimal false f (-2))) a = true.
Proof.
  intros Ha. destruct a as [s c e]. cbn in Ha. subst c.
  unfold decimal.mul, decimal.fix_prec.
  cbn [decimal.dec_sign decimal.dec_int decimal.dec_exp]. rewrite N.mul_0_l.
  rewrite DecimalFacts.ndigits_zero. change (1 <=? decimal.prec)%N with true. cbn iota.
  unfold decimal.eqb. rewrite (DecimalFacts.compare_at _ _ (e + -2)) by (cbn; lia).
  unfold decimal.scaled; cbn. destruct (xorb s false), s; reflexivity.
Qed.

(** The product of a non-zero amount with a factor [f / 100],
    [1.01 <= f / 100 <= 9.99], keeps the sign and has a greater magnitude,
    whatever the rounding does. *)
Lemma mul_factor_magnitude (s : bool) (c : N) (e : Z) (f : N) :
  (101 <= f <= 999)%N -> (0 < c)%N ->
  let r := decimal.mul (mkDecimal s c e) (mkDecimal false f (-2)) in
  decimal.dec_sign r = s /\
  (e + -2 <= decimal.dec_exp r) /\
  (100 * Z.of_N c < Z.of_N (decimal.dec_int r) * 10 ^ (decimal.dec_exp r - (e + -2))).
Proof.
  intros Hf Hc. unfold decimal.mul, decimal.fix_prec.
  cbn [decimal.dec_sign decimal.dec_int decimal.dec_exp]. rewrite xorb_false_r.
  set (C := (c * f)%N).
  assert (HC : (0 < C)%N) by (unfold C; lia).
  destruct (DecimalFacts.ndigits_spec C HC) as [[Dlo Dhi] D1].
  set (d := decimal.ndigits C) in *.
  destruct (N.leb_spec d decimal.prec) as [Hd|Hd].
  - cbn [decimal.dec_sign decimal.dec_int decimal.dec_exp].
    replace (e + -2 - (e + -2)) with 0 by lia. change (10 ^ 0) with 1.
    split; [reflexivity|]. split; [lia|]. unfold C. nia.
  - unfold decimal.prec in *.
    set (k := (d - 28)%N) in *.
    pose proof (DecimalFacts.round_half_even_bounds C k) as [Qlo Qhi].
    set (q := decimal.round_half_even C k) in *.
    assert (Ek : (d - 1 = 27 + k)%N) by lia. rewrite Ek in Dlo.
    rewrite N.pow_add_r in Dlo.
    assert (HP : (0 < 10 ^ k)%N) by (apply N.neq_0_lt_0, N.pow_nonzero; lia).
    pose proof (N.div_mod C (10 ^ k)%N ltac:(lia)) as Hdm.
    pose proof (N.mod_lt C (10 ^ k)%N ltac:(lia)) as Hml.
    assert (Hmain : 100 * Z.of_N c < Z.of_N q * 10 ^ Z.of_N k).
    { assert (E10 : 10 ^ Z.of_N k = Z.of_N (10 ^ k)) by (rewrite N2Z.inj_pow; reflexivity).
      rewrite E10.
      change (10 ^ 27)%N with 1000000000000000000000000000%N in Dlo.
      unfold C in *.
      generalize dependent (c * f / 10 ^ k)%N. generalize dependent ((c * f) mod 10 ^ k)%N.
      generalize dependent (10 ^ k)%N. intros. nia. }
    destruct (N.eqb_spec q (10 ^ 28)) as [Hq|Hq];
      cbn [decimal.dec_sign decimal.dec_int decimal.dec_exp];
      (split; [reflexivity|]); (split; [lia|]).
    + replace (e + -2 + Z.of_N k + 1 - (e + -2)) with (Z.succ (Z.of_N k)) by lia.
      rewrite Z.pow_succ_r by lia. rewrite Hq in *.
      change (Z.of_N (10 ^ 28 / 10)) with 1000000000000000000000000000.
      change (Z.of_N (10 ^ 28)) with 10000000000000000000000000000 in Hmain. lia.
    + replace (e + -2 + Z.of_N k - (e + -2)) with (Z.of_N k) by lia. exact Hmain.
Qed.

(** Multiplying a positive amount by such a factor raises it. *)
Lemma mul_factor_gt (a : Decimal) (f : N) :
  (101 <= f <= 999)%N ->
  decimal.gtb a Decimal_0 = true ->
  decimal.gtb (decimal.mul a (mkDecimal false f (-2))) a = true.
Proof.
  intros Hf Ha. apply gtb_zero in Ha. destruct a as [s c e].
  cbn [decimal.dec_sign decimal.dec_int] in Ha. destruct Ha as [-> Hc].
  destruct (mul_factor_magnitude false c e f Hf Hc) as (Hs & He & Hm).
  set (r := decimal.mul _ _) in *.
  unfold decimal.gtb. rewrite (DecimalFacts.compare_at _ _ (e + -2)) by (cbn; lia).
  unfold decimal.scaled. rewrite Hs. cbn [decimal.dec_sign decimal.dec_int decimal.dec_exp].
  replace (e - (e + -2)) with 2 by lia. change (10 ^ 2) with 100.
  destruct (Z.compare_spec (Z.of_N (decimal.dec_int r) * 10 ^ (decimal.dec_exp r - (e + -2)))
              (Z.of_N c * 100)); try reflexivity; lia.
Qed.

(** Multiplying an amount that is not positive by such a factor does not
    raise it. *)
Lemma mul_factor_not_gt (a : Decimal) (f : N) :
  (101 <= f <= 999)%N ->
  decimal.gtb a Decimal_0 = false ->
  decimal.gtb (decimal.mul a (mkDecimal false f (-2))) a = false.
Proof.
  intros Hf Ha. destruct (N.eq_dec (decimal.dec_int a) 0%N) as [Hc0|Hc0].
  { pose proof (mul_zero a f Hc0) as E. unfold decimal.eqb in E. unfold decimal.gtb.
    destruct (decimal.compare _ a); congruence. }
  destruct a as [s c e]. cbn [decimal.dec_int] in Hc0.
  destruct s.
  2:{ exfalso. assert (T : decimal.gtb (mkDecimal false c e) Decimal_0 = true)
        by (apply gtb_zero; cbn; split; [reflexivity|lia]). congruence. }
  destruct (mul_factor_magnitude true c e f Hf ltac:(lia)) as (Hs & He & Hm).
  set (r := decimal.mul _ _) in *.
  unfold decimal.gtb. rewrite (DecimalFacts.compare_at _ _ (e + -2)) by (cbn; lia).
  unfold decimal.scaled. rewrite Hs. cbn [decimal.dec_sign decimal.dec_int decimal.dec_exp].
  replace (e - (e + -2)) with 2 by lia. change (10 ^ 2) with 100.
  destruct (Z.compare_spec (- (Z.of_N (decimal.dec_int r) * 10 ^ (decimal.dec_exp r - (e + -2))))
              (- (Z.of_N c * 100))); try reflexivity; lia.
Qed.


End DecimalMore.

(** ** Percentages *)

Lemma isnan_leb (h : float) : isnan h -> (h <=? h)%float = false.
Proof.
  unfold isnan, PrimFloat.is_nan. rewrite FloatAxioms.eqb_spec, FloatAxioms.leb_spec.
  intros H. apply negb_true_iff in H.
  destruct (Prim2SF h) as [s|s| |s m e]; try reflexivity; exfalso; revert H;
    unfold SFeqb, SFcompare; SF.by_cases.
Qed.

Lemma to_int_spec (x : float) : Float64.to_int x = sf_to_int (Prim2SF x).
Proof. reflexivity. Qed.

Lemma unit_percent_str (x : float) :
  Binary64.unit_share x ->
  exists n, 0 <= n <= 100 /\ percent_str x = Ok (pretty n).
Proof.
  intros [H0 H1]. rewrite FloatAxioms.leb_spec in H0, H1.
  destruct (RoundMore.unit_percent (Prim2SF x) (Prim2SF_valid x) H0 H1) as (n & Hn & Hb).
  exists n. split; [assumption|].
  unfold percent_str. rewrite to_int_spec, FloatAxioms.mul_spec, Float64Facts.Prim2SF_100, Hn.
  reflexivity.
Qed.

Lemma percent_or_unit (x : option float) (dflt : string) :
  unit_or_none x ->
  exists n, 0 <= n <= 100 /\
    percent_or x dflt = Ok (if share_truthy x then pretty n else dflt).
Proof.
  destruct x as [f|]; cbn [unit_or_none percent_or share_truthy].
  - intros Hu. destruct (unit_percent_str f Hu) as (n & Hn & ->).
    exists n. split; [assumption|]. destruct (Float64.truthy f); reflexivity.
  - intros _. exists 0. split; [lia|reflexivity].
Qed.

Lemma percent_or_nan (h : float) (dflt : string) :
  isnan h -> percent_or (Some h) dflt = Raise ValueError.
Proof.
  intros Hn. apply isnan_leb in Hn. unfold percent_or, percent_str.
  rewrite (Float64More.nan_truthy h Hn), (Float64More.nan_to_int h Hn). reflexivity.
Qed.


(** ** More on the order of binary64 *)

Module OrderMore.

#[local] Open Scope float_scope.

Lemma SFltb_leb_trans (a b c : spec_float) :
  SFltb a b = true -> SFleb b c = true -> SFltb a c = true.
Proof.
  unfold SFleb, SFltb, SFcompare.
  destruct a as [sa|sa| |sa ma ea], b as [sb|sb| |sb mb eb], c as [sc|sc| |sc mc ec];
    try discriminate; try reflexivity; SF.by_cases.
Qed.


Lemma SFleb_false_ltb (a b : spec_float) :
  a <> S754_nan -> b <> S754_nan -> SFleb b a = false -> SFltb a b = true.
Proof.
  unfold SFleb, SFltb, SFcompare.
  destruct a as [sa|sa| |sa ma ea], b as [sb|sb| |sb mb eb];
    try congruence; try reflexivity; SF.by_cases.
Qed.

Lemma SFltb_eqb (a b k : spec_float) :
  SFltb a b = true -> SFeqb a k = true -> SFeqb b k = false.
Proof.
  unfold SFeqb, SFltb, SFcompare.
  destruct a as [sa|sa| |sa ma ea], b as [sb|sb| |sb mb eb], k as [sk|sk| |sk mk ek];
    try discriminate; try reflexivity; SF.by_cases.
Qed.

Lemma ltb_leb_trans (a b c : float) :
  (a <? b) = true -> (b <=? c) = true -> (a <? c) = true.
Proof. rewrite !FloatAxioms.ltb_spec, FloatAxioms.leb_spec. apply SFltb_leb_trans. Qed.


Lemma leb_false_ltb (a b : float) :
  Binary64.comparable a -> Binary64.comparable b -> (b <=? a) = false -> (a <? b) = true.
Proof.
  intros Ha Hb. rewrite FloatAxioms.ltb_spec, FloatAxioms.leb_spec.
  apply SFleb_false_ltb; apply Float64Facts.comparable_not_nan; assumption.
Qed.

Lemma leb_not_ltb (a b : float) : (a <=? b) = true -> (b <? a) = false.
Proof.
  intros H. destruct (b <? a) eqn:E; [|reflexivity].
  rewrite (Float64Facts.ltb_antisym _ _ E) in H. discriminate.
Qed.

Lemma ltb_eqb (a b k : float) :
  (a <? b) = true -> (a =? k) = true -> (b =? k) = false.
Proof. rewrite FloatAxioms.ltb_spec, !FloatAxioms.eqb_spec. apply SFltb_eqb. Qed.

End OrderMore.

(** ** The tiers of the suggestion *)


Lemma gtb_irrefl (a : Decimal) : decimal.gtb a a = false.
Proof. unfold decimal.gtb. now rewrite DecimalFacts.compare_refl. Qed.

(** The suggestion is above the current bid exactly when the share is a
    number below one half and the bid is positive. *)
Lemma suggested_bid_gtb (d : KeywordShareData) :
  decimal.gtb (suggested_bid d) (current_bid d) = true <->
  exists h, high_share d = Some h /\ (h <? 0.5)%float = true /\
            decimal.gtb (current_bid d) Decimal_0 = true.
Proof.
  split.
  - intros G. destruct (high_share d) as [h|] eqn:Hh.
    2:{ unfold suggested_bid in G. rewrite Hh, gtb_irrefl in G. discriminate. }
    exists h. split; [reflexivity|].
    rewrite suggested_bid_thresholds, Hh in G.
    destruct (decimal.gtb (current_bid d) Decimal_0) eqn:Hpos.
    + split; [|reflexivity].
      destruct (0.5 <=? h)%float eqn:E5; [rewrite gtb_irrefl in G; discriminate|].
      assert (Hc : Binary64.comparable h).
      { destruct (h <=? 0.1)%float eqn:E1; [apply (Float64Facts.leb_comparable _ _ E1)|].
        destruct (h <=? 0.3)%float eqn:E3; [apply (Float64Facts.leb_comparable _ _ E3)|].
        destruct (h <=? 0.5)%float eqn:E; [apply (Float64Facts.leb_comparable _ _ E)|].
        rewrite gtb_irrefl in G. discriminate. }
      apply OrderMore.leb_false_ltb; [assumption|reflexivity|assumption].
    + exfalso. revert G. unfold Decimal_1_50, Decimal_1_25, Decimal_1_10.
      destruct (0.5 <=? h)%float; [rewrite gtb_irrefl; discriminate|].
      destruct (h <=? 0.1)%float;
        [rewrite (DecimalMore.mul_factor_not_gt _ 150 ltac:(lia) Hpos); discriminate|].
      destruct (h <=? 0.3)%float;
        [rewrite (DecimalMore.mul_factor_not_gt _ 125 ltac:(lia) Hpos); discriminate|].
      destruct (h <=? 0.5)%float;
        [rewrite (DecimalMore.mul_factor_not_gt _ 110 ltac:(lia) Hpos); discriminate|].
      rewrite gtb_irrefl; discriminate.
  - intros (h & Hh & H05 & Hpos).
    rewrite suggested_bid_thresholds, Hh.
    rewrite (Float64Facts.ltb_antisym _ _ H05), (Float64Facts.ltb_leb _ _ H05).
    destruct (h <=? 0.1)%float; [apply DecimalMore.mul_factor_gt; [lia|assumption]|].
    destruct (h <=? 0.3)%float; apply DecimalMore.mul_factor_gt; (lia || assumption).
Qed.

(** ** The filters of [optimize] *)

Lemma max_share_filter_In (max_share : float) (data : list KeywordShareData)
    (d : KeywordShareData) :
  In d (max_share_filter max_share data) <->
  In d data /\ below_threshold (max_share / 100) d = true /\
  decimal.gtb (suggested_bid d) (current_bid d) = true.
Proof.
  unfold max_share_filter. cbn zeta. rewrite !filter_In. tauto.
Qed.


(** ** Parsed rows *)

Lemma parse_report_data_In (report : Report.ImpressionShareReport)
    (keywords_by_id : gmap Z KeywordInfo) (d : KeywordShareData) :
  In d (_parse_report_data report keywords_by_id) ->
  exists row, In row (Report.row report) /\ kept_row row = true /\
              parsed_from keywords_by_id row d.
Proof.
  unfold _parse_report_data. rewrite parse_fold. cbn [app].
  rewrite in_flat_map. intros (row & Hrow & Hd). exists row. split; [assumption|].
  destruct (kept_row row) eqn:Hk.
  - destruct (row_output_kept keywords_by_id row Hk) as (d' & E & P).
    rewrite E in Hd. destruct Hd as [<-|[]]. split; [reflexivity|assumption].
  - rewrite (row_output_dropped keywords_by_id row Hk) in Hd. destruct Hd.
Qed.

(** ** More on the sort *)

(** The rows of key [k]. *)
Lemma insert_by_share_last (x : KeywordShareData) (l : list KeywordShareData) :
  Forall (fun y => share_le y x) l -> insert_by_share x l = l ++ [x].
Proof.
  induction 1 as [|y l Hy _ IH]; cbn [insert_by_share app]; [reflexivity|].
  rewrite (OrderMore.leb_not_ltb _ _ Hy), IH. reflexivity.
Qed.

Lemma StronglySorted_snoc (l : list KeywordShareData) (x : KeywordShareData) :
  StronglySorted share_le l -> Forall (fun y => share_le y x) l ->
  StronglySorted share_le (l ++ [x]).
Proof.
  induction 1 as [|y l Hs IH Hy]; intros Hx; cbn [app].
  - repeat constructor.
  - inversion Hx; subst. constructor; [apply IH; assumption|].
    apply Forall_app. split; [assumption|]. constructor; [assumption|constructor].
Qed.

Lemma sort_fold_sorted_input (l acc : list KeywordShareData) :
  StronglySorted share_le (acc ++ l) ->
  fold_left (fun sorted x => insert_by_share x sorted) l acc = acc ++ l.
Proof.
  revert acc. induction l as [|x l IH]; intros acc Hs; cbn [fold_left].
  - now rewrite app_nil_r.
  - assert (Hx : Forall (fun y => share_le y x) acc).
    { clear IH. induction acc as [|y acc IHa]; [constructor|].
      cbn [app] in Hs. inversion Hs as [|? ? Hs' Hy]; subst.
      constructor; [|apply IHa, Hs'].
      apply Forall_app in Hy as [_ Hy]. inversion Hy; assumption. }
    rewrite (insert_by_share_last x acc Hx).
    rewrite IH; rewrite <- app_assoc; [reflexivity|exact Hs].
Qed.

Lemma filter_key_sorted (x : KeywordShareData) (k : float) (l : list KeywordShareData) (y : KeywordShareData) :
  (share_key x <? share_key y)%float = true ->
  (share_key x =? k)%float = true ->
  Forall (share_le y) l ->
  List.filter (fun d => (share_key d =? k)%float) (y :: l) = [].
Proof.
  intros Hlt Hk Hl. cbn [List.filter].
  rewrite (OrderMore.ltb_eqb _ _ _ Hlt Hk).
  induction Hl as [|z l Hz _ IH]; [reflexivity|]. cbn [List.filter].
  rewrite (OrderMore.ltb_eqb _ _ _ (OrderMore.ltb_leb_trans _ _ _ Hlt Hz) Hk). exact IH.
Qed.

Lemma insert_by_share_filter (x : KeywordShareData) (k : float) (l : list KeywordShareData) :
  StronglySorted share_le l ->
  List.filter (fun d => (share_key d =? k)%float) (insert_by_share x l)
  = List.filter (fun d => (share_key d =? k)%float) l
    ++ List.filter (fun d => (share_key d =? k)%float) [x].
Proof.
  induction 1 as [|y l Hs IH Hy]; cbn [insert_by_share]; [now cbn|].
  destruct (share_key x <? share_key y)%float eqn:Hlt.
  - change (x :: y :: l) with ([x] ++ y :: l). rewrite List.filter_app.
    destruct (share_key x =? k)%float eqn:Hk.
    + rewrite (filter_key_sorted x k l y Hlt Hk Hy). cbn [List.filter]. rewrite Hk.
      reflexivity.
    + cbn [List.filter]. rewrite Hk, app_nil_r. reflexivity.
  - change (List.filter ?f (y :: ?t)) with (List.filter f ([y] ++ t)).
    rewrite !List.filter_app, IH, app_assoc. reflexivity.
Qed.

Lemma sort_fold_filter (k : float) (l acc : list KeywordShareData) :
  Forall share_comparable l -> Forall share_comparable acc -> Sorted share_le acc ->
  List.filter (fun d => (share_key d =? k)%float)
    (fold_left (fun sorted x => insert_by_share x sorted) l acc)
  = List.filter (fun d => (share_key d =? k)%float) acc
    ++ List.filter (fun d => (share_key d =? k)%float) l.
Proof.
  revert acc. induction l as [|x l IH]; intros acc Hl Hacc Hs; cbn [fold_left].
  - now rewrite app_nil_r.
  - inversion Hl; subst. rewrite IH.
    + rewrite insert_by_share_filter
        by (apply Sorted_StronglySorted; [exact share_le_trans|assumption]).
      rewrite <- app_assoc, <- List.filter_app. reflexivity.
    + assumption.
    + apply insert_by_share_comparable; assumption.
    + apply insert_by_share_sorted; assumption.
Qed.

(** ** Strings *)

Lemma replace_stars_idem (s : string) : replace_stars (replace_stars s) = replace_stars s.
Proof.
  induction s as [|c s IH]; [reflexivity|]. cbn [replace_stars].
  destruct (Ascii.eqb c star) eqn:E; [exact IH|].
  cbn [replace_stars]. rewrite E, IH. reflexivity.
Qed.

Lemma lower_char_star (c : Ascii.ascii) : Ascii.eqb (lower_char c) star = Ascii.eqb c star.
Proof. destruct c as [[] [] [] [] [] [] [] []]; vm_compute; reflexivity. Qed.

Lemma lower_replace_stars (s : string) : lower (replace_stars s) = replace_stars (lower s).
Proof.
  induction s as [|c s IH]; [reflexivity|]. cbn [replace_stars lower].
  rewrite lower_char_star. destruct (Ascii.eqb c star); [exact IH|].
  cbn [lower]. rewrite IH. reflexivity.
Qed.

Lemma lower_empty (s : string) : lower s = ""%string <-> s = ""%string.
Proof. destruct s; cbn [lower]; split; intros H; try reflexivity; discriminate. Qed.

Lemma str_in_empty (s : string) : str_in "" s = true.
Proof. destruct s; reflexivity. Qed.

Lemma str_truthy_Some (s : string) : str_truthy (Some s) = negb (String.eqb s "").
Proof. reflexivity. Qed.

Lemma str_truthy_lower (c1 c2 : string) :
  lower c1 = lower c2 -> str_truthy (Some c1) = str_truthy (Some c2).
Proof.
  intros H. rewrite !str_truthy_Some.
  destruct (String.eqb_spec c1 ""), (String.eqb_spec c2 ""); try reflexivity; exfalso.
  - subst c1. cbn [lower] in H. symmetry in H. apply (proj1 (lower_empty c2)) in H.
    contradiction.
  - subst c2. cbn [lower] in H. apply (proj1 (lower_empty c1)) in H. contradiction.
Qed.

Lemma filter_all {A : Type} (f : A -> bool) (l : list A) :
  (forall a, f a = true) -> List.filter f l = l.
Proof.
  intros H. induction l as [|a l IH]; [reflexivity|]. cbn [List.filter].
  now rewrite H, IH.
Qed.

Lemma first_30_length (s : string) : (String.length (first_30 s) <= 30)%nat.
Proof.
  unfold first_30. generalize 30%nat as n. revert s.
  induction s as [|c s IH]; intros [|n]; cbn [String.substring String.length]; try lia.
  specialize (IH n). lia.
Qed.

(** ** The table of [analyze] *)

Lemma table_columns_length (show_suggestions : bool) :
  length (table_columns show_suggestions) = if show_suggestions then 7%nat else 6%nat.
Proof. destruct show_suggestions; reflexivity. Qed.

Lemma row_values_Ok (show_suggestions : bool) (d : KeywordShareData) (cells : list string) :
  row_values show_suggestions d = Ok cells ->
  length cells = length (table_columns show_suggestions) /\
  hd ""%string cells = first_30 (campaign_name d) /\
  share_range d = Ok (nth 3 cells ""%string).
Proof.
  unfold row_values. destruct (share_range d) as [share|e]; [|discriminate].
  cbn. intros [= <-]. destruct show_suggestions; repeat split; reflexivity.
Qed.

Lemma add_rows_Ok (show_suggestions : bool) (data : list KeywordShareData)
    (table rows : list (list string)) :
  add_rows show_suggestions table data = Ok rows ->
  exists new, rows = table ++ new /\
    Forall2 (fun d cells => row_values show_suggestions d = Ok cells) data new.
Proof.
  revert table. induction data as [|d data IH]; intros table; cbn [add_rows].
  - intros [= <-]. exists []. rewrite app_nil_r. split; [reflexivity|constructor].
  - destruct (row_values show_suggestions d) as [cells|e] eqn:E; [|discriminate].
    cbn. intros H. destruct (IH _ H) as (new & -> & F).
    exists (cells :: new). rewrite <- app_assoc. split; [reflexivity|].
    constructor; assumption.
Qed.




(** ** The rows of [analyze] *)

Lemma analyze_rows_Some (min_share : option float) (data rows : list KeywordShareData) :
  analyze_rows min_share data = Some rows ->
  Permutation rows (min_share_filter min_share data) /\ rows <> [].
Proof.
  unfold analyze_rows. destruct (min_share_filter min_share data) as [|d l] eqn:E;
    [discriminate|].
  intros [= <-]. pose proof (sort_by_share_perm (d :: l)) as P. split; [exact P|].
  intros H. rewrite H in P. apply Permutation_nil in P. discriminate.
Qed.

Lemma filter_length_le {A : Type} (f : A -> bool) (l : list A) :
  (length (List.filter f l) <= length l)%nat.
Proof.
  induction l as [|a l IH]; cbn [List.filter length]; [lia|].
  destruct (f a); cbn [length]; lia.
Qed.

Lemma min_share_filter_length (min_share : option float) (data : list KeywordShareData) :
  (length (min_share_filter min_share data) <= length data)%nat.
Proof. destruct min_share; cbn; [apply filter_length_le|lia]. Qed.

Lemma campaign_filter_length (campaign : option string) (data : list KeywordShareData) :
  (length (campaign_filter campaign data) <= length data)%nat.
Proof.
  unfold campaign_filter. destruct campaign as [c|]; [|lia].
  destruct (str_truthy (Some c)); [apply filter_length_le|lia].
Qed.

Lemma parse_report_data_length (report : Report.ImpressionShareReport)
    (keywords_by_id : gmap Z KeywordInfo) :
  length (_parse_report_data report keywords_by_id)
  = length (List.filter kept_row (Report.row report)).
Proof.
  unfold _parse_report_data. rewrite parse_fold. cbn [app].
  induction (Report.row report) as [|row rows IH]; [reflexivity|].
  cbn [flat_map List.filter]. rewrite length_app, IH.
  destruct (kept_row row) eqn:Hk.
  - destruct (row_output_kept keywords_by_id row Hk) as (d & -> & _). reflexivity.
  - rewrite (row_output_dropped keywords_by_id row Hk). reflexivity.
Qed.

Lemma display_rows_length (data : list KeywordShareData) (show_suggestions : bool)
    (columns : list string) (rows : list (list string)) :
  _display_share_table data show_suggestions = Ok (columns, rows) ->
  columns = table_columns show_suggestions /\ length data = length rows.
Proof.
  unfold _display_share_table.
  destruct (add_rows show_suggestions [] data) as [rows'|e] eqn:E; [|discriminate].
  cbn. intros [= <- <-]. apply add_rows_Ok in E as (new & -> & F).
  split; [reflexivity|]. apply (Forall2_length _ _ _ F).
Qed.

(** ** The summary table of [report] *)

Lemma summary_rows_Ok (rows : list Report.Row) (table out : list (list string)) :
  summary_rows table rows = Ok out ->
  exists new, out = table ++ new /\
    Forall2 (fun row cells => summary_row row = Ok cells) rows new.
Proof.
  revert table. induction rows as [|row rows IH]; intros table; cbn [summary_rows].
  - intros [= <-]. exists []. rewrite app_nil_r. split; [reflexivity|constructor].
  - destruct (summary_row row) as [cells|e] eqn:E; [|discriminate].
    cbn. intros H. destruct (IH _ H) as (new & -> & F).
    exists (cells :: new). rewrite <- app_assoc. split; [reflexivity|].
    constructor; assumption.
Qed.

Lemma summary_row_Ok (row : Report.Row) (cells : list string) :
  summary_row row = Ok cells ->
  length cells = 5%nat /\ summary_share row = Ok (nth 3 cells ""%string) /\
  (String.length (hd ""%string cells) <= 30)%nat.
Proof.
  unfold summary_row. cbn zeta. destruct (summary_share row) as [share|e]; [|discriminate].
  cbn. intros [= <-]. cbn. repeat split. apply first_30_length.
Qed.

Lemma row_output_parsed (keywords_by_id : gmap Z KeywordInfo) (row : Report.Row)
    (d : KeywordShareData) :
  row_output keywords_by_id row = [d] -> parsed_from keywords_by_id row d.
Proof.
  intros H. destruct (kept_row row) eqn:Hk.
  - destruct (row_output_kept keywords_by_id row Hk) as (d' & E & P). congruence.
  - rewrite (row_output_dropped keywords_by_id row Hk) in H. discriminate.
Qed.

(** ** Fetching the bids *)

Lemma for_each_invariant {A S : Type} (P : S -> Prop) (body : S -> A -> option S)
    (l : list A) (s s' : S) :
  (forall s a s', In a l -> P s -> body s a = Some s' -> P s') ->
  P s -> for_each body l s = Some s' -> P s'.
Proof.
  revert s. induction l as [|a l IH]; intros s Hb Hs; cbn [for_each].
  - intros [= <-]. exact Hs.
  - destruct (body s a) as [s1|] eqn:E; [|discriminate].
    apply IH; [intros; eapply Hb; eauto; now right|].
    apply (Hb s a s1); [now left|assumption..].
Qed.

Lemma for_each_sim {A S T : Type} (R : S -> T -> Prop)
    (f : S -> A -> option S) (g : T -> A -> option T) (l : list A) (s : S) (t : T) :
  (forall s t a, R s t ->
     match f s a, g t a with
     | Some s', Some t' => R s' t'
     | None, None => True
     | _, _ => False
     end) ->
  R s t ->
  match for_each f l s, for_each g l t with
  | Some s', Some t' => R s' t'
  | None, None => True
  | _, _ => False
  end.
Proof.
  intros H. revert s t. induction l as [|a l IH]; intros s t Hst; cbn [for_each].
  - exact Hst.
  - specialize (H s t a Hst). destruct (f s a), (g t a); try contradiction; [|exact I].
    apply IH, H.
Qed.

Section FetchFacts.

Variable Decimal_of_str : string -> option Decimal.

Lemma optimize_keyword_aligned (camp ag : Z) (acc acc' : lookups) (kw : Api.Keyword) :
  aligned acc -> optimize_keyword Decimal_of_str camp ag acc kw = Some acc' -> aligned acc'.
Proof.
  intros Ha. unfold optimize_keyword.
  destruct (Api.bid_amount kw) as [money|]; [|intros [= <-]; exact Ha].
  destruct (Decimal_of_str (Api.amount money)) as [b|]; [|discriminate].
  intros [= <-] k. cbn [fst snd].
  destruct (decide (Api.kw_id kw = k)) as [->|Hk].
  - rewrite !lookup_insert_eq. split; [split; discriminate|].
    intros info [= <-]. eauto.
  - rewrite !lookup_insert_ne by assumption. apply Ha.
Qed.

Lemma optimize_fetch_aligned (campaigns_resp : option (list Api.Campaign))
    (fetched : lookups) :
  optimize_fetch Decimal_of_str campaigns_resp = Some fetched -> aligned fetched.
Proof.
  unfold optimize_fetch. destruct campaigns_resp as [campaigns|]; [|discriminate].
  apply for_each_invariant.
  - intros acc camp acc' _ Ha. unfold optimize_campaign.
    destruct (Api.ad_groups camp) as [ags|]; [|discriminate].
    apply for_each_invariant; [|exact Ha].
    intros acc1 ag acc1' _ Ha1. unfold optimize_ad_group.
    destruct (Api.keywords ag) as [kws|]; [|discriminate].
    apply for_each_invariant; [|exact Ha1].
    intros acc2 kw acc2' _. apply optimize_keyword_aligned.
  - intros k. cbn [fst snd]. rewrite !lookup_empty. split; [tauto|discriminate].
Qed.

Lemma fetch_keyword_sim (camp ag : Z) (bids : gmap Z KeywordInfo) (acc : lookups)
    (kw : Api.Keyword) :
  same_bids bids acc ->
  match analyze_keyword Decimal_of_str bids kw,
        optimize_keyword Decimal_of_str camp ag acc kw with
  | Some bids', Some acc' => same_bids bids' acc'
  | None, None => True
  | _, _ => False
  end.
Proof.
  unfold same_bids, analyze_keyword, optimize_keyword. intros ->.
  destruct (Api.bid_amount kw) as [money|]; [|reflexivity].
  destruct (Decimal_of_str (Api.amount money)); [reflexivity|exact I].
Qed.

Lemma fetch_sim (campaign : option string) (campaigns_resp : option (list Api.Campaign)) :
  str_truthy campaign = false ->
  analyze_fetch Decimal_of_str campaign campaigns_resp
  = fst <$> optimize_fetch Decimal_of_str campaigns_resp.
Proof.
  intros Hc. unfold analyze_fetch, optimize_fetch.
  destruct campaigns_resp as [campaigns|]; [|reflexivity].
  pose proof (for_each_sim same_bids (analyze_campaign Decimal_of_str campaign)
                (optimize_campaign Decimal_of_str) campaigns ∅ (∅, ∅)) as H.
  destruct (for_each (analyze_campaign _ _) _ _), (for_each (optimize_campaign _) _ _);
    cbn; [f_equal; apply H| exfalso; apply H | exfalso; apply H|reflexivity];
    try reflexivity.
  all: intros bids acc camp Hs; unfold analyze_campaign, optimize_campaign;
    replace (skipped_campaign campaign camp) with false
      by (unfold skipped_campaign; destruct campaign; [rewrite Hc|]; reflexivity);
    destruct (Api.ad_groups camp) as [ags|]; [|exact I];
    apply for_each_sim; [|exact Hs];
    intros bids1 acc1 ag Hs1; unfold analyze_ad_group, optimize_ad_group;
    destruct (Api.keywords ag) as [kws|]; [|exact I];
    apply for_each_sim; [|exact Hs1];
    intros bids2 acc2 kw; apply fetch_keyword_sim.
Qed.

Lemma analyze_fetch_skipped (campaign : option string) (campaigns : list Api.Campaign)
    (acc : gmap Z KeywordInfo) :
  Forall (fun camp => skipped_campaign campaign camp = true) campaigns ->
  for_each (analyze_campaign Decimal_of_str campaign) campaigns acc = Some acc.
Proof.
  induction 1 as [|camp campaigns Hs _ IH]; cbn [for_each]; [reflexivity|].
  unfold analyze_campaign at 1. rewrite Hs. exact IH.
Qed.

End FetchFacts.

(** ** The rows of [optimize] *)

Lemma optimize_rows_Some (max_share : float) (data rows : list KeywordShareData) :
  optimize_rows max_share data = Some rows ->
  Permutation rows (max_share_filter max_share data) /\ rows <> [].
Proof.
  unfold optimize_rows. destruct (max_share_filter max_share data) as [|d l] eqn:E;
    [discriminate|].
  intros [= <-]. pose proof (sort_by_share_perm (d :: l)) as P. split; [exact P|].
  intros H. rewrite H in P. apply Permutation_nil in P. discriminate.
Qed.

(** ** The loop of [optimize] *)

Lemma optimize_loop_dry_run (keyword_paths : gmap Z (Z * Z)) (user : nat -> turn)
    (i : nat) (data : list KeywordShareData) (t : tally) :
  fst (optimize_loop true keyword_paths user i data t) = t.
Proof.
  revert i. induction data as [|kw data IH]; intros i; cbn [optimize_loop]; [reflexivity|].
  destruct (share_range kw); [apply IH|reflexivity].
Qed.

Lemma optimize_loop_quit (keyword_paths : gmap Z (Z * Z)) (user : nat -> turn)
    (k i : nat) (data : list KeywordShareData) (t : tally) :
  answer (user (i + k)%nat) = act_q ->
  fst (optimize_loop false keyword_paths user i data t)
  = fst (optimize_loop false keyword_paths user i (firstn k data) t).
Proof.
  revert k i t. induction data as [|kw data IH]; intros k i t Hq.
  - now rewrite firstn_nil.
  - destruct k as [|k]; cbn [firstn optimize_loop].
    + rewrite Nat.add_0_r in Hq. destruct (share_range kw); [|reflexivity].
      unfold act. rewrite Hq. reflexivity.
    + destruct (share_range kw); [|reflexivity].
      destruct (act keyword_paths kw (user i) t) as [t'|]; [|reflexivity].
      apply IH. rewrite Nat.add_succ_r in Hq. exact Hq.
Qed.

Lemma update_bid_accounted (keyword_paths : gmap Z (Z * Z)) (kw : KeywordShareData)
    (bid : amount) (raises : bool) (t : tally) :
  accounted 1 t (update_bid keyword_paths kw bid raises t).
Proof.
  unfold update_bid, accounted.
  destruct (keyword_paths !! keyword_id kw) as [[camp ag]|]; [destruct raises|];
    cbn [updates_made updates_skipped failures calls]; rewrite ?length_app; cbn [length];
    lia.
Qed.

Lemma act_accounted (keyword_paths : gmap Z (Z * Z)) (kw : KeywordShareData)
    (u : turn) (t t' : tally) :
  act keyword_paths kw u t = Some t' -> accounted 1 t t'.
Proof.
  unfold act. destruct (answer u); [| |destruct (custom u)|]; intros [= <-];
    try apply update_bid_accounted;
    unfold accounted; cbn [updates_made updates_skipped failures calls]; lia.
Qed.

Lemma accounted_trans (n m : Z) (t0 t1 t2 : tally) :
  accounted n t0 t1 -> accounted m t1 t2 -> accounted (n + m) t0 t2.
Proof. unfold accounted. cbn zeta. lia. Qed.

Lemma optimize_loop_accounted (dry_run : bool) (keyword_paths : gmap Z (Z * Z))
    (user : nat -> turn) (i : nat) (data : list KeywordShareData) (t : tally) :
  accounted (Z.of_nat (length data)) t
    (fst (optimize_loop dry_run keyword_paths user i data t)).
Proof.
  revert i t. induction data as [|kw data IH]; intros i t; cbn [optimize_loop length].
  - unfold accounted. cbn. lia.
  - assert (Z : accounted (Z.of_nat (S (length data))) t t)
      by (unfold accounted; cbn zeta; lia).
    destruct (share_range kw); [|exact Z].
    destruct dry_run.
    + specialize (IH (S i) t). revert IH. unfold accounted. cbn zeta. lia.
    + destruct (act keyword_paths kw (user i) t) as [t'|] eqn:E; [|exact Z].
      replace (Z.of_nat (S (length data))) with (1 + Z.of_nat (length data)) by lia.
      apply (accounted_trans _ _ t t'); [apply (act_accounted _ _ _ _ _ E)|apply IH].
Qed.

Lemma act_same_answers (keyword_paths : gmap Z (Z * Z)) (kw : KeywordShareData)
    (u1 u2 : turn) (t1 t2 : tally) :
  answer u1 = answer u2 -> custom u1 = custom u2 ->
  calls t1 = calls t2 -> updates_skipped t1 = updates_skipped t2 ->
  match act keyword_paths kw u1 t1, act keyword_paths kw u2 t2 with
  | Some t1', Some t2' =>
      calls t1' = calls t2' /\ updates_skipped t1' = updates_skipped t2'
  | None, None => True
  | _, _ => False
  end.
Proof.
  intros Ha Hc Hcalls Hsk. unfold act, update_bid. rewrite <- Ha, <- Hc.
  destruct (answer u1); [| |destruct (custom u1)|]; try exact I;
    destruct (keyword_paths !! keyword_id kw) as [[camp ag]|];
    try destruct (update_raises u1); try destruct (update_raises u2);
    cbn [calls updates_skipped]; rewrite ?Hcalls, ?Hsk; split; reflexivity.
Qed.

Lemma optimize_loop_same_answers (dry_run : bool) (keyword_paths : gmap Z (Z * Z))
    (user1 user2 : nat -> turn) (i : nat) (data : list KeywordShareData) (t1 t2 : tally) :
  same_answers user1 user2 ->
  calls t1 = calls t2 -> updates_skipped t1 = updates_skipped t2 ->
  let r1 := optimize_loop dry_run keyword_paths user1 i data t1 in
  let r2 := optimize_loop dry_run keyword_paths user2 i data t2 in
  calls (fst r1) = calls (fst r2) /\
  updates_skipped (fst r1) = updates_skipped (fst r2) /\ snd r1 = snd r2.
Proof.
  intros Hu. revert i t1 t2. induction data as [|kw data IH]; intros i t1 t2 Hc Hs;
    cbn [optimize_loop]; cbn zeta.
  - auto.
  - destruct (share_range kw); [|auto].
    destruct dry_run; [apply IH; assumption|].
    destruct (Hu i) as [Ha Hcu].
    pose proof (act_same_answers keyword_paths kw (user1 i) (user2 i) t1 t2 Ha Hcu Hc Hs) as H.
    destruct (act keyword_paths kw (user1 i) t1), (act keyword_paths kw (user2 i) t2);
      try contradiction; [|auto].
    destruct H. apply IH; assumption.
Qed.

Lemma update_bid_calls (keyword_paths : gmap Z (Z * Z)) (kw : KeywordShareData)
    (bid : amount) (raises : bool) (t : tally) :
  calls (update_bid keyword_paths kw bid raises t) = calls t \/
  exists camp ag,
    keyword_paths !! keyword_id kw = Some (camp, ag) /\
    calls (update_bid keyword_paths kw bid raises t)
    = calls t ++ [mkCall camp ag (keyword_id kw) bid (currency kw)].
Proof.
  unfold update_bid. destruct (keyword_paths !! keyword_id kw) as [[camp ag]|]; [|now left].
  right. exists camp, ag. split; [reflexivity|]. destruct raises; reflexivity.
Qed.

Lemma act_call_of (keyword_paths : gmap Z (Z * Z)) (user : nat -> turn)
    (all : list KeywordShareData) (kw : KeywordShareData) (i : nat) (t t' : tally) :
  In kw all -> decimal.gtb (suggested_bid kw) (current_bid kw) = true ->
  Forall (call_of keyword_paths user all) (calls t) ->
  act keyword_paths kw (user i) t = Some t' ->
  Forall (call_of keyword_paths user all) (calls t').
Proof.
  intros Hin Hg Ht. unfold act.
  destruct (answer (user i)) eqn:Ea; [| |destruct (custom (user i)) as [a|] eqn:Ec|];
    intros [= <-]; try exact Ht.
  - destruct (update_bid_calls keyword_paths kw (Number (suggested_bid kw))
                (update_raises (user i)) t) as [->|(camp & ag & Hp & ->)]; [exact Ht|].
    apply Forall_app. split; [exact Ht|]. constructor; [|constructor].
    exists kw. cbn. auto 10.
  - destruct (update_bid_calls keyword_paths kw a
                (update_raises (user i)) t) as [->|(camp & ag & Hp & ->)]; [exact Ht|].
    apply Forall_app. split; [exact Ht|]. constructor; [|constructor].
    exists kw. cbn. repeat split; try assumption. right. exists i. auto.
Qed.

Lemma optimize_loop_call_of (dry_run : bool) (keyword_paths : gmap Z (Z * Z))
    (user : nat -> turn) (all : list KeywordShareData) (i : nat)
    (data : list KeywordShareData) (t : tally) :
  (forall kw, In kw data ->
     In kw all /\ decimal.gtb (suggested_bid kw) (current_bid kw) = true) ->
  Forall (call_of keyword_paths user all) (calls t) ->
  Forall (call_of keyword_paths user all)
    (calls (fst (optimize_loop dry_run keyword_paths user i data t))).
Proof.
  revert i t. induction data as [|kw data IH]; intros i t Hd Ht; cbn [optimize_loop];
    [exact Ht|].
  destruct (share_range kw); [|exact Ht].
  assert (Hd' : forall kw', In kw' data ->
            In kw' all /\ decimal.gtb (suggested_bid kw') (current_bid kw') = true)
    by (intros; apply Hd; now right).
  destruct dry_run; [apply IH; assumption|].
  destruct (act keyword_paths kw (user i) t) as [t'|] eqn:E; [|exact Ht].
  apply IH; [assumption|].
  destruct (Hd kw (or_introl eq_refl)) as [Hin Hg].
  apply (act_call_of keyword_paths user all kw i t t' Hin Hg Ht E).
Qed.

(** ** Shares inside the interval of the data model *)








(** ** The properties *)

(** ** Properties of [KeywordShareData] *)

(** X1. A share that is a number below 0.50 always raises the bid by one of
    the three factors; the final [return self.current_bid] is reached by a
    NaN share only, which leaves the bid as it is. *)
Theorem suggested_bid_number_or_nan (d : KeywordShareData) (h : float) :
  high_share d = Some h ->
  (isnan h -> suggested_bid d = current_bid d) /\
  ((h <? 0.5)%float = true ->
     suggested_bid d = decimal.mul (current_bid d) Decimal_1_50 \/
     suggested_bid d = decimal.mul (current_bid d) Decimal_1_25 \/
     suggested_bid d = decimal.mul (current_bid d) Decimal_1_10).
Proof.
  intros Hh. rewrite suggested_bid_thresholds, Hh. split.
  - intros Hn. apply isnan_leb in Hn.
    rewrite (Float64More.nan_leb_r h _ Hn), !(Float64More.nan_leb_l h _ Hn). reflexivity.
  - intros H05.
    rewrite (Float64Facts.ltb_antisym _ _ H05), (Float64Facts.ltb_leb _ _ H05).
    destruct (h <=? 0.1)%float; [auto|]. destruct (h <=? 0.3)%float; auto.
Qed.

Lemma suggested_bid_number_or_nan_witness :
  suggested_bid (sample_row one_dollar None (Some nan)) = one_dollar /\
  (suggested_bid (sample_row one_dollar None (Some 0.45%float))
     = decimal.mul one_dollar Decimal_1_50 \/
   suggested_bid (sample_row one_dollar None (Some 0.45%float))
     = decimal.mul one_dollar Decimal_1_25 \/
   suggested_bid (sample_row one_dollar None (Some 0.45%float))
     = decimal.mul one_dollar Decimal_1_10).
Proof.
  split.
  - apply (proj1 (suggested_bid_number_or_nan
                    (sample_row one_dollar None (Some nan)) nan eq_refl)).
    reflexivity.
  - apply (proj2 (suggested_bid_number_or_nan
                    (sample_row one_dollar None (Some 0.45%float)) 0.45%float eq_refl)).
    reflexivity.
Defined.





(** X4. When the shares that are present lie in [0, 1], [share_range]
    raises nothing: it is "N/A" when both are missing and otherwise
    "l-h%" with whole percentages from 0 to 100, where a missing or zero
    low share is shown as 0 and a missing or zero high share as "?". *)
Theorem share_range_unit (d : KeywordShareData) :
  unit_or_none (low_share d) -> unit_or_none (high_share d) ->
  exists l h, 0 <= l <= 100 /\ 0 <= h <= 100 /\
    share_range d =
    Ok (match low_share d, high_share d with
        | None, None => "N/A"%string
        | _, _ =>
            String.append (if share_truthy (low_share d) then pretty l else "0"%string)
              (String.append "-"
                 (String.append (if share_truthy (high_share d) then pretty h
                                 else "?"%string) "%"))
        end).
Proof.
  intros Hl Hh.
  destruct (percent_or_unit (low_share d) "0" Hl) as (l & Bl & El).
  destruct (percent_or_unit (high_share d) "?" Hh) as (h & Bh & Eh).
  exists l, h. split; [assumption|]. split; [assumption|].
  unfold share_range. rewrite El, Eh.
  destruct (low_share d), (high_share d); reflexivity.
Qed.

Lemma share_range_unit_witness :
  exists l h, 0 <= l <= 100 /\ 0 <= h <= 100 /\
    share_range (sample_row one_dollar (Some 0.29%float) (Some 0%float)) =
    Ok (String.append (pretty l) (String.append "-" (String.append "?" "%"))).
Proof.
  apply (share_range_unit (sample_row one_dollar (Some 0.29%float) (Some 0%float)));
    split; reflexivity.
Defined.

(** X5. A NaN share makes [share_range] raise [ValueError], an infinite
    low share [OverflowError]: a low share that is a NaN raises whatever
    the high share is, a high share that is a NaN raises when the low share
    is missing or in [0, 1]. *)
Theorem share_range_raises (d : KeywordShareData) :
  (forall l, low_share d = Some l -> isnan l -> share_range d = Raise ValueError) /\
  (forall h, high_share d = Some h -> isnan h -> unit_or_none (low_share d) ->
     share_range d = Raise ValueError) /\
  (low_share d = Some infinity \/ low_share d = Some neg_infinity ->
     share_range d = Raise OverflowError).
Proof.
  split; [|split].
  - intros l Hl Hn. unfold share_range. rewrite Hl, (percent_or_nan l _ Hn).
    destruct (high_share d); reflexivity.
  - intros h Hh Hn Hu. unfold share_range.
    destruct (percent_or_unit (low_share d) "0" Hu) as (n & _ & ->).
    rewrite Hh, (percent_or_nan h _ Hn). destruct (low_share d); reflexivity.
  - intros [Hl|Hl]; unfold share_range; rewrite Hl; destruct (high_share d); reflexivity.
Qed.

Lemma share_range_raises_witness :
  share_range (sample_row one_dollar (Some nan) (Some 0.5%float)) = Raise ValueError /\
  share_range (sample_row one_dollar (Some 0.1%float) (Some nan)) = Raise ValueError /\
  share_range (sample_row one_dollar (Some infinity) None) = Raise OverflowError.
Proof.
  refine (conj _ (conj _ _)).
  - apply (proj1 (share_range_raises (sample_row one_dollar (Some nan) (Some 0.5%float)))
             nan); reflexivity.
  - apply (proj1 (proj2 (share_range_raises
                           (sample_row one_dollar (Some 0.1%float) (Some nan)))) nan).
    + reflexivity.
    + reflexivity.
    + split; reflexivity.
  - apply (proj2 (proj2 (share_range_raises (sample_row one_dollar (Some infinity) None)))).
    left. reflexivity.
Defined.








(** X10. The sort is stable: when the shares are numbers, the rows of any
    one share stand in the sorted list in the order they had before. *)
Theorem sort_by_share_stable (data : list KeywordShareData) (k : float) :
  Forall share_comparable data ->
  List.filter (fun d => (share_key d =? k)%float) (sort_by_share data)
  = List.filter (fun d => (share_key d =? k)%float) data.
Proof.
  intros Hd. unfold sort_by_share.
  rewrite sort_fold_filter; [reflexivity|assumption|constructor|constructor].
Qed.

Lemma sort_by_share_stable_witness :
  List.filter (fun d => (share_key d =? 0)%float) (sort_by_share unsorted_rows)
  = List.filter (fun d => (share_key d =? 0)%float) unsorted_rows.
Proof.
  apply (sort_by_share_stable unsorted_rows 0%float).
  repeat constructor.
Defined.

(** X11. Rows that are in ascending order of share already are left as they
    are, so that sorting twice is sorting once. *)
Theorem sort_by_share_sorted_input (data : list KeywordShareData) :
  (StronglySorted share_le data -> sort_by_share data = data) /\
  (Forall share_comparable data ->
   sort_by_share (sort_by_share data) = sort_by_share data).
Proof.
  assert (S : forall l, StronglySorted share_le l -> sort_by_share l = l)
    by (intros l Hl; apply (sort_fold_sorted_input l [] Hl)).
  split; [apply S|]. intros Hd. apply S, sort_by_share_sorted, Hd.
Qed.

Lemma sort_by_share_sorted_input_witness :
  sort_by_share (sort_by_share unsorted_rows) = sort_by_share unsorted_rows.
Proof.
  apply (proj2 (sort_by_share_sorted_input unsorted_rows)). repeat constructor.
Defined.

(** X12. The "*" of a campaign pattern is no wildcard: the campaign filter
    of [analyze] drops every "*" of the pattern, wherever it stands, and a
    pattern of stars only filters nothing. *)
Theorem campaign_filter_stars (c : string) (data : list KeywordShareData) :
  campaign_filter (Some c) data = campaign_filter (Some (replace_stars c)) data /\
  (replace_stars c = ""%string -> campaign_filter (Some c) data = data).
Proof.
  assert (E : replace_stars c = ""%string -> campaign_filter (Some c) data = data).
  { intros H. unfold campaign_filter. destruct (str_truthy (Some c)); [|reflexivity].
    cbn zeta. rewrite H. apply filter_all. intros d. apply str_in_empty. }
  split; [|exact E].
  destruct (String.eqb_spec (replace_stars c) "") as [H|H].
  - rewrite E, H by assumption. reflexivity.
  - unfold campaign_filter. rewrite replace_stars_idem, !str_truthy_Some.
    destruct (String.eqb_spec (replace_stars c) ""); [contradiction|].
    destruct (String.eqb_spec c ""); [subst c; contradiction|]. reflexivity.
Qed.

Lemma campaign_filter_stars_witness :
  campaign_filter (Some "***"%string) unsorted_rows = unsorted_rows.
Proof. apply (proj2 (campaign_filter_stars "***" unsorted_rows)). reflexivity. Defined.

(** X13. The campaign filter of [analyze] does not tell capital from small
    letters: two patterns that differ in case only keep the same rows, and
    of two rows whose campaign names differ in case only it keeps both or
    none. *)
Theorem campaign_filter_case (c1 c2 : string) (data : list KeywordShareData) :
  lower c1 = lower c2 ->
  campaign_filter (Some c1) data = campaign_filter (Some c2) data /\
  (forall d1 d2, lower (campaign_name d1) = lower (campaign_name d2) ->
     campaign_filter (Some c1) [d1] = [] <-> campaign_filter (Some c1) [d2] = []).
Proof.
  intros H. split.
  - unfold campaign_filter. rewrite (str_truthy_lower c1 c2 H).
    rewrite !lower_replace_stars, H. reflexivity.
  - intros d1 d2 Hn. unfold campaign_filter.
    destruct (str_truthy (Some c1)); [|split; discriminate].
    cbn zeta. cbn [List.filter]. rewrite Hn.
    destruct (str_in _ _); split; (reflexivity || discriminate).
Qed.

Lemma campaign_filter_case_witness :
  campaign_filter (Some "BRAND"%string) unsorted_rows
  = campaign_filter (Some "brand"%string) unsorted_rows.
Proof. apply (proj1 (campaign_filter_case "BRAND" "brand" unsorted_rows eq_refl)). Defined.

(** X14. Every row of the table of [_display_share_table] has as many cells
    as the table has columns, seven with the suggestions and six without;
    the table has one row for each record, in their order, and the campaign
    cell holds at most 30 characters. *)
Theorem display_share_table_shape (data : list KeywordShareData) (show_suggestions : bool)
    (columns : list string) (rows : list (list string)) :
  _display_share_table data show_suggestions = Ok (columns, rows) ->
  length columns = (if show_suggestions then 7%nat else 6%nat) /\
  length rows = length data /\
  Forall2 (fun d cells =>
             length cells = length columns /\
             hd ""%string cells = first_30 (campaign_name d) /\
             (String.length (hd ""%string cells) <= 30)%nat /\
             share_range d = Ok (nth 3 cells ""%string))
          data rows.
Proof.
  unfold _display_share_table.
  destruct (add_rows show_suggestions [] data) as [rows'|e] eqn:E; [|discriminate].
  cbn. intros [= <- <-]. apply add_rows_Ok in E as (new & -> & F). cbn [app].
  split; [apply table_columns_length|]. split; [symmetry; apply (Forall2_length _ _ _ F)|].
  induction F as [|d cells data new Hd _ IH]; constructor; [|exact IH].
  destruct (row_values_Ok _ _ _ Hd) as (L & H0 & H3).
  repeat split; try assumption. rewrite H0. apply first_30_length.
Qed.

Lemma display_share_table_shape_witness :
  length (table_columns false) = 6%nat /\
  length [[ "Brand"; "running shoes"; "US"; "40-50%"; "2"; "1.00 USD" ]%string] = 1%nat /\
  Forall2 (fun d cells =>
             length cells = length (table_columns false) /\
             hd ""%string cells = first_30 (campaign_name d) /\
             (String.length (hd ""%string cells) <= 30)%nat /\
             share_range d = Ok (nth 3 cells ""%string))
          [half_share_row]
          [[ "Brand"; "running shoes"; "US"; "40-50%"; "2"; "1.00 USD" ]%string].
Proof.
  apply (display_share_table_shape [half_share_row] false). vm_compute. reflexivity.
Defined.



(** X16. When [analyze] prints its table, "Total keywords" is the number of
    rows of the table; it is at least 1 and at most the number of rows of
    the report that have a keyword id and a keyword, and the count of
    keywords "with <30% share" lies between 0 and the total. *)
Theorem analyze_totals (campaign : option string) (min_share : option float)
    (suggest : bool) (report : Report.ImpressionShareReport)
    (keywords_by_id : gmap Z KeywordInfo)
    (columns : list string) (rows : list (list string)) (total low : Z) :
  analyze_impression_share campaign min_share suggest report keywords_by_id
    = Analysis columns rows total low ->
  total = Z.of_nat (length rows) /\
  1 <= total <= Z.of_nat (length (List.filter kept_row (Report.row report))) /\
  0 <= low <= total.
Proof.
  unfold analyze_impression_share. cbn zeta.
  destruct (analyze_rows _ _) as [data|] eqn:Ea; [|discriminate].
  destruct (_display_share_table data suggest) as [[cols rws]|e] eqn:Ed; [|discriminate].
  intros [= <- <- <- <-].
  destruct (display_rows_length _ _ _ _ Ed) as [_ Hlen].
  apply analyze_rows_Some in Ea as [P Hne].
  pose proof (Permutation_length P) as L.
  pose proof (min_share_filter_length min_share
                (campaign_filter campaign (_parse_report_data report keywords_by_id))) as L1.
  pose proof (campaign_filter_length campaign
                (_parse_report_data report keywords_by_id)) as L2.
  rewrite parse_report_data_length in L2.
  unfold low_share_count. pose proof (filter_length_le counted_low data) as L3.
  assert (length data <> 0%nat) by (destruct data; [congruence|discriminate]).
  rewrite Hlen. lia.
Qed.

Lemma analyze_totals_witness :
  1 = Z.of_nat (length [[ "Brand"; "running shoes"; "US"; "10-20%"; "1"; "0.00 USD"; "-" ]%string]) /\
  1 <= 1 <= Z.of_nat (length (List.filter kept_row (Report.row two_row_report))) /\
  0 <= 1 <= 1.
Proof.
  apply (analyze_totals (Some "br*AND"%string) (Some 30%float) true two_row_report ∅
           (table_columns true)).
  vm_compute. reflexivity.
Defined.

(** X17. A keyword whose share is 0 is not counted among the keywords "with
    <30% share": under [--min-share 30], where every row of the table has a
    share below 0.30, the count is the number of rows whose share is not
    zero. *)
Theorem low_share_count_min_share_30 (data rows : list KeywordShareData) :
  analyze_rows (Some 30%float) data = Some rows ->
  low_share_count rows
  = Z.of_nat (length (List.filter (fun d => share_truthy (high_share d)) rows)) /\
  (forall d, high_share d = Some 0%float \/ high_share d = Some (-0)%float ->
     counted_low d = false).
Proof.
  intros Ha. split.
  - apply analyze_rows_Some in Ha as [P _]. unfold low_share_count. do 2 f_equal.
    apply filter_ext_in. intros d Hd.
    apply (Permutation_in _ P) in Hd. cbn in Hd. apply filter_In in Hd as [_ Hd].
    unfold below_threshold in Hd. unfold counted_low, share_truthy.
    destruct (high_share d) as [h|]; [|reflexivity].
    change (30 / 100)%float with 0.3%float in Hd. rewrite Hd. apply andb_true_r.
  - intros d [H|H]; unfold counted_low; rewrite H; reflexivity.
Qed.

Lemma low_share_count_min_share_30_witness :
  low_share_count (sort_by_share (min_share_filter (Some 30%float) unsorted_rows))
  = Z.of_nat (length (List.filter (fun d => share_truthy (high_share d))
                        (sort_by_share (min_share_filter (Some 30%float) unsorted_rows)))).
Proof.
  apply (proj1 (low_share_count_min_share_30 unsorted_rows
                  (sort_by_share (min_share_filter (Some 30%float) unsorted_rows))
                  eq_refl)).
Defined.

(** X18. The summary table of [report] and the table of [analyze] show the
    same share and rank of a row of the report, but for the missing ones: a
    row without any share is "0-?%" in the summary and "N/A" in the
    analysis, a row without a rank (or with the rank 0) is "-" in the
    summary and "N/A" in the analysis. *)
Theorem summary_row_vs_analysis (keywords_by_id : gmap Z KeywordInfo)
    (row : Report.Row) (d : KeywordShareData) (cells : list string) :
  row_output keywords_by_id row = [d] ->
  summary_row row = Ok cells ->
  (if int_truthy (Report.rank row)
   then nth 4 cells ""%string = rank_str d
   else nth 4 cells ""%string = "-"%string /\ rank_str d = "N/A"%string) /\
  match Report.low_impression_share row, Report.high_impression_share row with
  | None, None => nth 3 cells ""%string = "0-?%"%string /\ share_range d = Ok "N/A"%string
  | _, _ => share_range d = Ok (nth 3 cells ""%string)
  end.
Proof.
  intros Hd Hc. apply row_output_parsed in Hd.
  destruct Hd as (_ & _ & _ & _ & _ & _ & _ & _ & _ & Hl & Hh & Hr & _).
  unfold summary_row in Hc. cbn zeta in Hc.
  destruct (summary_share row) as [share|e] eqn:Es; [|discriminate].
  cbn in Hc. injection Hc as <-. cbn [nth].
  unfold rank_str, share_range. rewrite Hl, Hh, Hr. split.
  - destruct (Report.rank row) as [r|]; cbn [int_truthy]; [|split; reflexivity].
    destruct (r =? 0); cbn [negb]; [split|]; reflexivity.
  - unfold summary_share in Es.
    destruct (Report.low_impression_share row) as [l|],
             (Report.high_impression_share row) as [h|]; try exact Es.
    cbn in Es. injection Es as <-. split; reflexivity.
Qed.

Lemma summary_row_vs_analysis_witness :
  nth 4 [ "Brand"; "running shoes"; "US"; "10-20%"; "1" ]%string ""%string
  = rank_str (mkKeywordShareData 11 "Brand" 22 "Exact" 33 "running shoes" "US"
                Decimal_0 "USD" (Some 0.1%float) (Some 0.2%float) (Some 1) (Some 50)) /\
  share_range (mkKeywordShareData 11 "Brand" 22 "Exact" 33 "running shoes" "US"
                 Decimal_0 "USD" (Some 0.1%float) (Some 0.2%float) (Some 1) (Some 50))
  = Ok (nth 3 [ "Brand"; "running shoes"; "US"; "10-20%"; "1" ]%string ""%string).
Proof.
  apply (summary_row_vs_analysis ∅ full_row
           (mkKeywordShareData 11 "Brand" 22 "Exact" 33 "running shoes" "US"
              Decimal_0 "USD" (Some 0.1%float) (Some 0.2%float) (Some 1) (Some 50))
           [ "Brand"; "running shoes"; "US"; "10-20%"; "1" ]%string);
    vm_compute; reflexivity.
Defined.

(** X19. The summary table of [report] has the first 50 rows of the report,
    or all of them when there are fewer, five cells in each, the first of at
    most 30 characters; the message "Showing first 50 of ..." follows it
    exactly when the report has more than 50 rows. *)
Theorem summary_table_shape (report : Report.ImpressionShareReport)
    (rows : list (list string)) (more : bool) :
  summary_table report = Ok (rows, more) ->
  length rows = Nat.min 50 (length (Report.row report)) /\
  Forall2 (fun row cells =>
             summary_row row = Ok cells /\ length cells = 5%nat /\
             (String.length (hd ""%string cells) <= 30)%nat)
          (firstn 50 (Report.row report)) rows /\
  (more = true <-> (50 < length (Report.row report))%nat).
Proof.
  unfold summary_table.
  destruct (summary_rows [] (firstn 50 (Report.row report))) as [out|e] eqn:E;
    [|discriminate].
  cbn. intros [= <- <-]. apply summary_rows_Ok in E as (new & -> & F). cbn [app].
  split; [|split].
  - rewrite <- (Forall2_length _ _ _ F). apply length_firstn.
  - induction F as [|row cells rs new Hrow _ IH]; constructor; [|exact IH].
    destruct (summary_row_Ok _ _ Hrow) as (L & _ & H30). auto.
  - rewrite Z.ltb_lt. lia.
Qed.

Lemma summary_table_shape_witness :
  length [[ "Brand"; "running shoes"; "US"; "10-20%"; "1" ]; [ ""; ""; ""; "10-20%"; "-" ]]%string
  = Nat.min 50 (length (Report.row two_row_report)) /\
  Forall2 (fun row cells =>
             summary_row row = Ok cells /\ length cells = 5%nat /\
             (String.length (hd ""%string cells) <= 30)%nat)
          (firstn 50 (Report.row two_row_report))
          [[ "Brand"; "running shoes"; "US"; "10-20%"; "1" ]; [ ""; ""; ""; "10-20%"; "-" ]]%string /\
  (false = true <-> (50 < length (Report.row two_row_report))%nat).
Proof.
  apply (summary_table_shape two_row_report). vm_compute. reflexivity.
Defined.

(** X20. The two lookups that [optimize] fetches have the same keys: a
    keyword has a bid in [keywords_by_id] exactly when it has a path in
    [keyword_paths], and each entry of [keywords_by_id] holds both a bid and
    a currency. *)
Theorem optimize_fetch_same_keys (Decimal_of_str : string -> option Decimal)
    (campaigns_resp : option (list Api.Campaign))
    (keywords_by_id : gmap Z KeywordInfo) (keyword_paths : gmap Z (Z * Z)) (k : Z) :
  optimize_fetch Decimal_of_str campaigns_resp = Some (keywords_by_id, keyword_paths) ->
  (is_Some (keywords_by_id !! k) <-> is_Some (keyword_paths !! k)) /\
  (forall info, keywords_by_id !! k = Some info -> is_Some (bid info) /\ is_Some (kw_currency info)).
Proof.
  intros H. apply optimize_fetch_aligned in H. destruct (H k) as [Hk Hi].
  cbn [fst snd] in Hk, Hi. split.
  - rewrite <- !not_eq_None_Some. tauto.
  - intros info E. destruct (Hi info E) as (b & c & ->). split; eexists; reflexivity.
Qed.

Lemma optimize_fetch_same_keys_witness :
  is_Some ((<[7 := mkKeywordInfo (Some one_dollar) (Some "USD"%string)]> ∅
            : gmap Z KeywordInfo) !! 7)
  <-> is_Some ((<[7 := (1, 2)]> ∅ : gmap Z (Z * Z)) !! 7).
Proof.
  apply (proj1 (optimize_fetch_same_keys (fun _ => Some one_dollar)
    (Some [Api.mkCampaign 1 "Brand"
             (Some [Api.mkAdGroup 2
                      (Some [Api.mkKeyword 7 (Some (Api.mkMoney "1.00" "USD"));
                             Api.mkKeyword 8 None])])])
    (<[7 := mkKeywordInfo (Some one_dollar) (Some "USD"%string)]> ∅)
    (<[7 := (1, 2)]> ∅) 7 eq_refl)).
Defined.

(** X21. Without a campaign pattern, [analyze] fetches the bids that
    [optimize] fetches: the same [keywords_by_id], and an error exactly when
    [optimize] has one. *)
Theorem analyze_fetch_as_optimize (Decimal_of_str : string -> option Decimal)
    (campaign : option string) (campaigns_resp : option (list Api.Campaign)) :
  campaign = None \/ campaign = Some ""%string ->
  analyze_fetch Decimal_of_str campaign campaigns_resp
  = fst <$> optimize_fetch Decimal_of_str campaigns_resp.
Proof. intros [->| ->]; apply fetch_sim; reflexivity. Qed.

Lemma analyze_fetch_as_optimize_witness :
  analyze_fetch (fun _ => Some one_dollar) None
    (Some [Api.mkCampaign 1 "Brand" (Some [Api.mkAdGroup 2 None])])
  = fst <$> optimize_fetch (fun _ => Some one_dollar)
              (Some [Api.mkCampaign 1 "Brand" (Some [Api.mkAdGroup 2 None])]).
Proof.
  apply (analyze_fetch_as_optimize (fun _ => Some one_dollar) None). left. reflexivity.
Defined.

(** X22. [analyze] matches the campaign pattern with the case as typed when
    it fetches the bids (line 240), though it filters the rows without
    regard to case (line 266): when no campaign name contains the pattern as
    typed, no bid is fetched, and every row of the report is shown with the
    bid "0.00 USD" and the suggestion "-". *)
Theorem analyze_fetch_case_sensitive (Decimal_of_str : string -> option Decimal)
    (campaign : option string) (campaigns : list Api.Campaign)
    (report : Report.ImpressionShareReport) (d : KeywordShareData) :
  Forall (fun camp => skipped_campaign campaign camp = true) campaigns ->
  analyze_fetch Decimal_of_str campaign (Some campaigns) = Some ∅ /\
  (In d (_parse_report_data report ∅) ->
   bid_str d = "0.00 USD"%string /\ suggested_bid_str d = "-"%string).
Proof.
  intros Hs. split; [apply analyze_fetch_skipped, Hs|].
  intros Hd. apply parse_report_data_In in Hd as (row & _ & _ & P).
  destruct P as (_ & _ & _ & _ & _ & _ & _ & Hnone & _).
  destruct (Hnone (lookup_empty _)) as [Hb Hc].
  split.
  - unfold bid_str. rewrite Hb, Hc. reflexivity.
  - unfold suggested_bid_str. cbn zeta.
    replace (decimal.eqb (suggested_bid d) (current_bid d)) with true; [reflexivity|].
    symmetry. unfold suggested_bid. rewrite Hb.
    repeat match goal with |- context [match ?x with _ => _ end] => destruct x end;
      reflexivity.
Qed.

Lemma analyze_fetch_case_sensitive_witness :
  analyze_fetch (fun _ => Some one_dollar) (Some "BRAND*"%string)
    (Some [Api.mkCampaign 1 "Brand" None]) = Some ∅ /\
  (In (mkKeywordShareData 11 "Brand" 22 "Exact" 33 "running shoes" "US"
         Decimal_0 "USD" (Some 0.1%float) (Some 0.2%float) (Some 1) (Some 50))
      (_parse_report_data two_row_report ∅) ->
   bid_str (mkKeywordShareData 11 "Brand" 22 "Exact" 33 "running shoes" "US"
         Decimal_0 "USD" (Some 0.1%float) (Some 0.2%float) (Some 1) (Some 50))
     = "0.00 USD"%string /\
   suggested_bid_str (mkKeywordShareData 11 "Brand" 22 "Exact" 33 "running shoes" "US"
         Decimal_0 "USD" (Some 0.1%float) (Some 0.2%float) (Some 1) (Some 50))
     = "-"%string).
Proof.
  apply (analyze_fetch_case_sensitive (fun _ => Some one_dollar) (Some "BRAND*"%string)
           [Api.mkCampaign 1 "Brand" None] two_row_report).
  repeat constructor.
Defined.

(** X23. Every keyword that [optimize] walks through has a path in
    [keyword_paths]: the test [kw.keyword_id in keyword_paths] of the loop
    never fails on the lookups that the command has fetched. *)
Theorem optimize_rows_have_paths (Decimal_of_str : string -> option Decimal)
    (campaigns_resp : option (list Api.Campaign)) (fetched : lookups)
    (max_share : float) (report : Report.ImpressionShareReport)
    (data : list KeywordShareData) :
  optimize_fetch Decimal_of_str campaigns_resp = Some fetched ->
  optimize_rows max_share (_parse_report_data report (fst fetched)) = Some data ->
  Forall (fun kw => is_Some (snd fetched !! keyword_id kw)) data.
Proof.
  intros Hf Hr. apply optimize_fetch_aligned in Hf.
  apply optimize_rows_Some in Hr as [P _].
  rewrite List.Forall_forall. intros kw Hkw. apply (Permutation_in _ P) in Hkw.
  apply max_share_filter_In in Hkw as (Hin & _ & G).
  apply suggested_bid_gtb in G as (h & _ & _ & Hp).
  apply parse_report_data_In in Hin as (row & _ & _ & Q).
  destruct Q as (_ & _ & _ & _ & _ & _ & _ & Hnone & _).
  destruct (Hf (keyword_id kw)) as [Hk _].
  apply not_eq_None_Some. intros E. apply Hk in E.
  destruct (Hnone E) as [Hb _]. rewrite Hb in Hp. discriminate Hp.
Qed.

Lemma optimize_rows_have_paths_witness :
  Forall (fun kw => is_Some ((<[33 := (1, 2)]> ∅ : gmap Z (Z * Z)) !! keyword_id kw))
    [ mkKeywordShareData 11 "Brand" 22 "Exact" 33 "running shoes" "US"
        one_dollar "USD" (Some 0.1%float) (Some 0.2%float) (Some 1) (Some 50) ].
Proof.
  refine (optimize_rows_have_paths (fun _ => Some one_dollar)
    (Some [Api.mkCampaign 1 "Brand"
             (Some [Api.mkAdGroup 2
                      (Some [Api.mkKeyword 33 (Some (Api.mkMoney "1.00" "USD"))])])])
    (<[33 := mkKeywordInfo (Some one_dollar) (Some "USD"%string)]> ∅, <[33 := (1, 2)]> ∅)
    50 two_row_report
    [ mkKeywordShareData 11 "Brand" 22 "Exact" 33 "running shoes" "US"
        one_dollar "USD" (Some 0.1%float) (Some 0.2%float) (Some 1) (Some 50) ] _ _);
    vm_compute; reflexivity.
Defined.

(** X24. With [--dry-run], [optimize] makes no update call and counts no
    keyword as updated or skipped, whatever the report, the bids and the
    user. *)
Theorem dry_run_no_updates (max_share : float) (user : nat -> turn)
    (report : Report.ImpressionShareReport) (fetched : lookups)
    (t : tally) (e : option exn) :
  interactive_bid_optimizer max_share true user report fetched = Some (t, e) ->
  t = no_updates /\ calls t = [] /\ updates_made t = 0 /\ updates_skipped t = 0.
Proof.
  unfold interactive_bid_optimizer. destruct (optimize_rows _ _) as [data|]; [|discriminate].
  intros [= H]. pose proof (optimize_loop_dry_run (snd fetched) user 0 data no_updates) as D.
  rewrite H in D. cbn [fst] in D. subst t. auto.
Qed.

Lemma dry_run_no_updates_witness :
  no_updates = no_updates /\ calls no_updates = [] /\
  updates_made no_updates = 0 /\ updates_skipped no_updates = 0.
Proof.
  apply (dry_run_no_updates 50 (accepting (fun _ => false)) two_row_report
           (<[33 := mkKeywordInfo (Some one_dollar) (Some "USD"%string)]> ∅, <[33 := (1, 2)]> ∅)
           no_updates None).
  vm_compute. reflexivity.
Defined.

(** X25. The answer "q" ends the loop of [optimize]: the keywords that
    follow the one at which the user quits make no difference to the updates
    and the counters. *)
Theorem quit_stops_loop (keyword_paths : gmap Z (Z * Z)) (user : nat -> turn) (k : nat)
    (data : list KeywordShareData) (t : tally) :
  answer (user k) = act_q ->
  fst (optimize_loop false keyword_paths user 0 data t)
  = fst (optimize_loop false keyword_paths user 0 (firstn k data) t).
Proof. apply (optimize_loop_quit keyword_paths user k 0 data t). Qed.

Lemma quit_stops_loop_witness :
  fst (optimize_loop false three_paths
         (fun i => if (i <? 1)%nat then accepting (fun _ => false) i else quitting i)
         0 three_keywords no_updates)
  = fst (optimize_loop false three_paths
           (fun i => if (i <? 1)%nat then accepting (fun _ => false) i else quitting i)
           0 (firstn 1 three_keywords) no_updates).
Proof.
  apply (quit_stops_loop three_paths
           (fun i => if (i <? 1)%nat then accepting (fun _ => false) i else quitting i)
           1 three_keywords no_updates).
  reflexivity.
Defined.

(** X26. The summary of [optimize] accounts for each keyword once at most:
    the bids updated are the update calls that did not raise, and the bids
    updated, the keywords skipped and the failures reported are together no
    more than the keywords of the loop. *)
Theorem optimize_loop_counters (dry_run : bool) (keyword_paths : gmap Z (Z * Z))
    (user : nat -> turn) (data : list KeywordShareData) :
  let t := fst (optimize_loop dry_run keyword_paths user 0 data no_updates) in
  0 <= updates_made t <= Z.of_nat (length (calls t)) /\
  Z.of_nat (length (calls t)) <= updates_made t + failures t /\
  0 <= updates_skipped t /\
  updates_made t + updates_skipped t + failures t <= Z.of_nat (length data).
Proof.
  cbn zeta.
  pose proof (optimize_loop_accounted dry_run keyword_paths user 0 data no_updates) as H.
  unfold accounted in H. cbn [no_updates updates_made updates_skipped failures calls length] in H.
  cbn zeta in H. lia.
Qed.

(** X27. A failure of an update has no effect on the keywords after it: two
    runs of the loop with the same answers and custom bids make the same
    update calls in the same order, skip the same number of keywords and
    end in the same way, whichever of the calls raise. *)
Theorem update_failure_isolated (dry_run : bool) (keyword_paths : gmap Z (Z * Z))
    (user1 user2 : nat -> turn) (data : list KeywordShareData) (t : tally) :
  same_answers user1 user2 ->
  calls (fst (optimize_loop dry_run keyword_paths user1 0 data t))
  = calls (fst (optimize_loop dry_run keyword_paths user2 0 data t)) /\
  updates_skipped (fst (optimize_loop dry_run keyword_paths user1 0 data t))
  = updates_skipped (fst (optimize_loop dry_run keyword_paths user2 0 data t)) /\
  snd (optimize_loop dry_run keyword_paths user1 0 data t)
  = snd (optimize_loop dry_run keyword_paths user2 0 data t).
Proof.
  intros Hu.
  apply (optimize_loop_same_answers dry_run keyword_paths user1 user2 0 data t t Hu);
    reflexivity.
Qed.

Lemma update_failure_isolated_witness :
  calls (fst (optimize_loop false three_paths (accepting (fun _ => false)) 0
                three_keywords no_updates))
  = calls (fst (optimize_loop false three_paths (accepting (fun i => (i =? 0)%nat)) 0
                  three_keywords no_updates)).
Proof.
  apply (proj1 (update_failure_isolated false three_paths
                  (accepting (fun _ => false)) (accepting (fun i => (i =? 0)%nat))
                  three_keywords no_updates
                  (fun i => conj eq_refl eq_refl))).
Defined.

(** X28. Every update call of [optimize] goes to the path of a keyword of
    the report, with the currency of its bid, and carries either a custom
    bid that the user has entered or the suggested bid of that keyword,
    which is above its current bid: the command lowers no bid of its own
    accord. *)
Theorem optimize_calls_raise_bids (max_share : float) (dry_run : bool)
    (user : nat -> turn) (report : Report.ImpressionShareReport) (fetched : lookups)
    (t : tally) (e : option exn) :
  interactive_bid_optimizer max_share dry_run user report fetched = Some (t, e) ->
  Forall (call_of (snd fetched) user (_parse_report_data report (fst fetched))) (calls t).
Proof.
  unfold interactive_bid_optimizer.
  destruct (optimize_rows _ _) as [data|] eqn:Er; [|discriminate].
  intros [= H]. apply optimize_rows_Some in Er as [P _].
  pose proof (optimize_loop_call_of dry_run (snd fetched) user
                (_parse_report_data report (fst fetched)) 0 data no_updates) as L.
  rewrite H in L. apply L; [|constructor].
  intros kw Hkw. apply (Permutation_in _ P) in Hkw.
  apply max_share_filter_In in Hkw as (Hin & _ & G). auto.
Qed.

Lemma optimize_calls_raise_bids_witness :
  Forall (call_of (<[33 := (1, 2)]> ∅) (accepting (fun _ => false))
            (_parse_report_data two_row_report
               (<[33 := mkKeywordInfo (Some one_dollar) (Some "USD"%string)]> ∅)))
    [ mkCall 1 2 33 (Number (mkDecimal false 12500 (-4))) "USD" ].
Proof.
  refine (optimize_calls_raise_bids 50 false (accepting (fun _ => false)) two_row_report
            (<[33 := mkKeywordInfo (Some one_dollar) (Some "USD"%string)]> ∅, <[33 := (1, 2)]> ∅)
            (mkTally 1 0 [ mkCall 1 2 33 (Number (mkDecimal false 12500 (-4))) "USD" ] 0)
            None _).
  vm_compute. reflexivity.
Defined.


